(** * FormFiller: field detection and mapping resolution

    A shallow embedding of the two classes that make up the core of the
    extension, [FieldDetector] (content/fieldDetector.ts) and [FormFiller]
    (content/formFiller.ts), together with the types of utils/types.ts.

    Conventions of the embedding:
    - a JavaScript string is a [string] of 8-bit characters; [toLowerCase]
      and [toUpperCase] act on the letters A-Z / a-z and leave every other
      character alone;
    - a thrown exception is the [Throw] completion of an operation, a normal
      return is [Normal];
    - calls to the logger are recorded as a trace of [LogEntry] (the call is
      recorded whether or not the logger's level filter would print it; the
      optional payload argument is not recorded);
    - the DOM is a tree of elements with their content attributes; the
      reflected properties [id], [name], [disabled] and [readOnly] are read
      off the attributes, and the properties the filler writes (value,
      checked, selectedIndex) together with the options of a select live in
      a store indexed by the element's handle, so that two detected fields
      that refer to one element share its state;
    - assigning a property stores the assigned value as it is: the value
      sanitization of typed inputs and the unchecking of the other radio
      buttons of a group are the browser's and are left out;
    - dispatching an event appends to the trace of dispatched events; page
      listeners are not part of the model (a listener's exception does not
      leave [dispatchEvent], and a plain [Event] of type click triggers no
      activation behaviour). *)

From Stdlib Require Import String Ascii List ZArith Bool Arith Lia DecimalString.
Import ListNotations.
Open Scope string_scope.
Open Scope list_scope.

(* ================================================================== *)
(** ** JavaScript values and strings *)

Module Js.

(** [TypeError]: a method called on a value that lacks it, or a property
    read from [null].  [SyntaxError]: a selector the parser rejects. *)
Inductive Error := TypeError | SyntaxError.

(** The completion of an operation that may throw. *)
Inductive Completion (A : Type) :=
| Normal (a : A)
| Throw (e : Error).
Arguments Normal {A} a.
Arguments Throw {A} e.

Definition lowerChar (c : ascii) : ascii :=
  let n := nat_of_ascii c in
  if ((65 <=? n) && (n <=? 90))%nat then ascii_of_nat (n + 32) else c.

Definition upperChar (c : ascii) : ascii :=
  let n := nat_of_ascii c in
  if ((97 <=? n) && (n <=? 122))%nat then ascii_of_nat (n - 32) else c.

Fixpoint toLowerCase (s : string) : string :=
  match s with
  | EmptyString => EmptyString
  | String c s' => String (lowerChar c) (toLowerCase s')
  end.

Fixpoint toUpperCase (s : string) : string :=
  match s with
  | EmptyString => EmptyString
  | String c s' => String (upperChar c) (toUpperCase s')
  end.

(** [s.includes(k)]: [k] occurs in [s] at some position. *)
Fixpoint includes (s k : string) : bool :=
  String.prefix k s
  || match s with
     | EmptyString => false
     | String _ s' => includes s' k
     end.

(** Truthiness of a string: every string but the empty one. *)
Definition truthy (s : string) : bool := negb (s =? "").

(** Truthiness of an optional string ([undefined] or a string). *)
Definition truthyOpt (o : option string) : bool :=
  match o with
  | Some s => truthy s
  | None => false
  end.

(** [o || ''] for an optional string. *)
Definition orEmpty (o : option string) : string :=
  match o with
  | Some s => if truthy s then s else ""
  | None => ""
  end.

(** [a || b] for two strings. *)
Definition orElse (a b : string) : string := if truthy a then a else b.

(** [xs.join(sep)] *)
Fixpoint join (sep : string) (xs : list string) : string :=
  match xs with
  | [] => ""
  | [x] => x
  | x :: rest => (x ++ sep ++ join sep rest)%string
  end.

(** Decimal rendering of a number inside a template literal. *)
Definition ofNat (n : nat) : string := NilZero.string_of_uint (Nat.to_uint n).

(** A plain object used as a string-keyed record, in insertion order.
    Assigning to an existing key keeps its position.  (An engine enumerates
    keys that are array indices first; attribute names of that shape are
    not modelled.) *)
Definition StringRecord := list (string * string).

Fixpoint recordSet (k v : string) (r : StringRecord) : StringRecord :=
  match r with
  | [] => [(k, v)]
  | (k', v') :: r' =>
      if k =? k' then (k, v) :: r' else (k', v') :: recordSet k v r'
  end.

Fixpoint recordGet (k : string) (r : StringRecord) : option string :=
  match r with
  | [] => None
  | (k', v') :: r' => if k =? k' then Some v' else recordGet k r'
  end.

Definition recordValues (r : StringRecord) : list string := map snd r.

End Js.

Import Js.

(* ================================================================== *)
(** ** utils/types.ts *)

Module FieldType.

Inductive t :=
| TEXT | EMAIL | PASSWORD | TELEPHONE | NUMBER | DATE | TEXTAREA | SELECT
| CHECKBOX | RADIO | URL | SEARCH | COLOR | RANGE | FILE | MONTH | WEEK
| TIME | DATETIME | UNKNOWN.

(** The string each member of the enum stands for. *)
Definition toString (ft : t) : string :=
  match ft with
  | TEXT => "text" | EMAIL => "email" | PASSWORD => "password"
  | TELEPHONE => "tel" | NUMBER => "number" | DATE => "date"
  | TEXTAREA => "textarea" | SELECT => "select" | CHECKBOX => "checkbox"
  | RADIO => "radio" | URL => "url" | SEARCH => "search" | COLOR => "color"
  | RANGE => "range" | FILE => "file" | MONTH => "month" | WEEK => "week"
  | TIME => "time" | DATETIME => "datetime-local" | UNKNOWN => "unknown"
  end.

Definition eq_dec (a b : t) : {a = b} + {a <> b}.
Proof. decide equality. Defined.

Definition eqb (a b : t) : bool := if eq_dec a b then true else false.

End FieldType.

Inductive LogLevel := DEBUG | INFO | WARN | ERROR.

Record LogEntry := mkLog { level : LogLevel; message : string }.

(* ================================================================== *)
(** ** The document *)

Module Dom.

(** An element: its handle (the identity the property store is keyed by),
    its local name (lower case for an HTML element), its content
    attributes in order, and its child elements. *)
#[warnings="-register-all"]
Inductive Element :=
  mkElement {
    handle : nat;
    localName : string;
    attributes : list (string * string);
    children : list Element
  }.

(** [element.tagName] of an HTML element is its name in upper case. *)
Definition tagName (e : Element) : string := toUpperCase (localName e).

Fixpoint lookupAttr (name : string) (attrs : list (string * string))
  : option string :=
  match attrs with
  | [] => None
  | (n, v) :: rest => if n =? name then Some v else lookupAttr name rest
  end.

(** [element.getAttribute(name)]; [None] is [null]. *)
Definition getAttribute (e : Element) (name : string) : option string :=
  lookupAttr name (attributes e).

Definition hasAttribute (e : Element) (name : string) : bool :=
  match getAttribute e name with
  | Some _ => true
  | None => false
  end.

(** [element.getAttribute(name) === v] *)
Definition attrIs (e : Element) (name v : string) : bool :=
  match getAttribute e name with
  | Some s => s =? v
  | None => false
  end.

(** The reflected IDL properties the filler reads. *)
Definition id (e : Element) : string := orEmpty (getAttribute e "id").
Definition name (e : Element) : string := orEmpty (getAttribute e "name").
Definition disabled (e : Element) : bool := hasAttribute e "disabled".
Definition readOnly (e : Element) : bool := hasAttribute e "readonly".

(** All descendants of an element, in document order. *)
Fixpoint descendants (e : Element) : list Element :=
  flat_map (fun c => c :: descendants c) (children e).

(** A selector that is a list of type selectors, [a, b, c]. *)
Definition matchesSelector (names : list string) (e : Element) : bool :=
  existsb (String.eqb (localName e)) names.

(** [element.querySelectorAll(names)] *)
Definition querySelectorAll (e : Element) (names : list string)
  : list Element :=
  filter (matchesSelector names) (descendants e).

Record Document :=
  mkDocument {
    documentElement : Element;
    (** [document.body]; [None] when the document has no body. *)
    body : option Element
  }.

(** [document.querySelectorAll(names)]: the root element counts too. *)
Definition documentQuerySelectorAll (d : Document) (names : list string)
  : list Element :=
  filter (matchesSelector names)
         (documentElement d :: descendants (documentElement d)).

End Dom.

Module DetectedField.

Record t :=
  mk {
    id : string;
    name : string;
    type : FieldType.t;
    element : Dom.Element;
    label : option string;
    placeholder : option string;
    attributes : StringRecord
  }.

End DetectedField.

(** [string | boolean | string[]] *)
Inductive MappingValue :=
| VString (s : string)
| VBoolean (b : bool)
| VArray (xs : list string).

Module FieldMapping.

Record t :=
  mk {
    id : option string;
    name : option string;
    type : option FieldType.t;
    label : option string;
    placeholder : option string;
    keywords : option (list string);
    value : MappingValue
  }.

End FieldMapping.

(* ================================================================== *)
(** ** content/fieldDetector.ts *)

Module FieldDetector.

Import Dom.

(** [determineFieldType]: the switch on the [type] attribute of an
    [input]; [None] is a missing attribute. *)
Definition inputFieldType (typeAttr : option string) : FieldType.t :=
  match typeAttr with
  | Some s =>
      if s =? "text" then FieldType.TEXT
      else if s =? "email" then FieldType.EMAIL
      else if s =? "password" then FieldType.PASSWORD
      else if s =? "tel" then FieldType.TELEPHONE
      else if s =? "number" then FieldType.NUMBER
      else if s =? "date" then FieldType.DATE
      else if s =? "checkbox" then FieldType.CHECKBOX
      else if s =? "radio" then FieldType.RADIO
      else if s =? "url" then FieldType.URL
      else if s =? "search" then FieldType.SEARCH
      else if s =? "color" then FieldType.COLOR
      else if s =? "range" then FieldType.RANGE
      else if s =? "file" then FieldType.FILE
      else if s =? "month" then FieldType.MONTH
      else if s =? "week" then FieldType.WEEK
      else if s =? "time" then FieldType.TIME
      else if s =? "datetime-local" then FieldType.DATETIME
      else FieldType.TEXT
  | None => FieldType.TEXT
  end.

Definition determineFieldType (element : Element) : FieldType.t :=
  let tagName := toLowerCase (tagName element) in
  if tagName =? "textarea" then FieldType.TEXTAREA
  else if tagName =? "select" then FieldType.SELECT
  else if tagName =? "input" then inputFieldType (getAttribute element "type")
  else FieldType.UNKNOWN.

(** The first test of [createDetectedField]: hidden fields, buttons and
    disabled elements are skipped. *)
Definition isSkipped (element : Element) : bool :=
  attrIs element "type" "hidden"
  || attrIs element "type" "submit"
  || attrIs element "type" "button"
  || attrIs element "type" "image"
  || attrIs element "type" "reset"
  || hasAttribute element "disabled".

(** [attributes[attr.name] = attr.value] on a plain object: assigning a
    string to the name [__proto__] creates no property. *)
Definition assignAttribute (r : StringRecord) (attr : string * string)
  : StringRecord :=
  if fst attr =? "__proto__" then r else recordSet (fst attr) (snd attr) r.

(** The record [createDetectedField] builds from [element.attributes]. *)
Definition gatherAttributes (element : Element) : StringRecord :=
  let attributes := fold_left assignAttribute (Dom.attributes element) [] in
  if attrIs element "autocomplete" "off"
     || hasAttribute element "readonly"
     || attrIs element "role" "combobox"
  then recordSet "isAutoComplete" "true" attributes
  else attributes.

Section Detector.

(** [findLabelForElement] walks label elements, text content and a
    selector built from the element's id (which the selector parser may
    reject, throwing).  Nothing proved below depends on which label it
    finds, so it is kept abstract: any function from the document and
    the element to a label, no label, or an exception. *)
Variable findLabelForElement :
  Document -> Element -> Completion (option string).

Variable document : Document.

(** [None] is the [null] result. *)
Definition createDetectedField (element : Element)
  : Completion (option DetectedField.t) :=
  if isSkipped element then Normal None
  else
    let id := orEmpty (getAttribute element "id") in
    let name := orEmpty (getAttribute element "name") in
    let placeholder := orEmpty (getAttribute element "placeholder") in
    if negb (truthy id) && negb (truthy name) && negb (truthy placeholder)
    then Normal None
    else
      let type := determineFieldType element in
      match findLabelForElement document element with
      | Throw e => Throw e
      | Normal label =>
          Normal (Some (DetectedField.mk id name type element label
                          (Some placeholder) (gatherAttributes element)))
      end.

(** One turn of the [forEach] of [detectFieldsInElement]: the state is
    the array of fields found so far and the logger calls made. *)
Definition detectStep (acc : list DetectedField.t * list LogEntry)
           (input : Element) : list DetectedField.t * list LogEntry :=
  match createDetectedField input with
  | Normal (Some field) => (fst acc ++ [field], snd acc)
  | Normal None => acc
  | Throw _ => (fst acc, snd acc ++ [mkLog ERROR "Error detecting field"])
  end.

Definition detectFieldsInElement (element : Element)
  : list DetectedField.t * list LogEntry :=
  let inputs := querySelectorAll element ["input"; "select"; "textarea"] in
  fold_left detectStep inputs ([], []).

Definition detectFieldsInForm (form : Element)
  : list DetectedField.t * list LogEntry :=
  detectFieldsInElement form.

(** One turn of the [forEach] over the forms of the document. *)
Definition formStep (acc : list DetectedField.t * list LogEntry)
           (form : Element) : list DetectedField.t * list LogEntry :=
  let formFields := detectFieldsInForm form in
  (fst acc ++ fst formFields, snd acc ++ snd formFields).

Definition directScanMessage : string :=
  "No form tags found, scanning for inputs directly".

Definition detectedMessage (n : nat) : string :=
  ("Detected " ++ ofNat n ++ " form fields")%string.

(** [detectFields]: the result and the logger calls, in order.  The
    direct scan of [document.body] throws when there is no body. *)
Definition detectFields
  : Completion (list DetectedField.t) * list LogEntry :=
  let log0 := [mkLog DEBUG "Detecting form fields"] in
  let forms := documentQuerySelectorAll document ["form"] in
  let '(detectedFields, log1) := fold_left formStep forms ([], log0) in
  if (length detectedFields =? 0)%nat then
    let log2 := log1 ++ [mkLog DEBUG directScanMessage] in
    match body document with
    | None => (Throw TypeError, log2)
    | Some b =>
        let pageFields := detectFieldsInElement b in
        let detectedFields := detectedFields ++ fst pageFields in
        (Normal detectedFields,
         log2 ++ snd pageFields
              ++ [mkLog INFO (detectedMessage (length detectedFields))])
    end
  else
    (Normal detectedFields,
     log1 ++ [mkLog INFO (detectedMessage (length detectedFields))]).

(** The direct scan ran: the logger call that announces it was made. *)
Definition directScanRan : Prop :=
  In (mkLog DEBUG directScanMessage) (snd detectFields).

End Detector.

End FieldDetector.

(* ================================================================== *)
(** ** The live state of the page *)

Module HTMLOption.

(** One [option] of a select: its value and its visible text. *)
Record t := mk { value : string; text : string }.

End HTMLOption.

Module Props.

(** The IDL properties of one form control that the filler touches.
    [selectedIndex] is -1 when no option is selected. *)
Record t :=
  mk {
    value : string;
    checked : bool;
    options : list HTMLOption.t;
    selectedIndex : Z
  }.

Definition setValue (v : string) (p : t) : t :=
  mk v (checked p) (options p) (selectedIndex p).

Definition setChecked (c : bool) (p : t) : t :=
  mk (value p) c (options p) (selectedIndex p).

Definition setSelectedIndex (i : Z) (p : t) : t :=
  mk (value p) (checked p) (options p) i.

End Props.

(** The page as the filler sees it: the properties of every control (by
    handle), the events dispatched so far as (target, type) in order, and
    the logger calls made so far. *)
Record World :=
  mkWorld {
    props : nat -> Props.t;
    dispatched : list (nat * string);
    logged : list LogEntry
  }.

(** Computations over the page that may throw.  A throw keeps the state
    reached so far. *)
Definition M (A : Type) : Type := World -> Completion A * World.

Definition ret {A} (a : A) : M A := fun w => (Normal a, w).

Definition throw {A} (e : Error) : M A := fun w => (Throw e, w).

Definition bind {A B} (c : M A) (k : A -> M B) : M B :=
  fun w =>
    match c w with
    | (Normal a, w') => k a w'
    | (Throw e, w') => (Throw e, w')
    end.

(** [try { c } catch (error) { handler(error) }] *)
Definition tryCatch {A} (c : M A) (handler : Error -> M A) : M A :=
  fun w =>
    match c w with
    | (Normal a, w') => (Normal a, w')
    | (Throw e, w') => handler e w'
    end.

Declare Scope js_scope.
Delimit Scope js_scope with js.
Notation "x <- c1 ;; c2" := (bind c1 (fun x => c2))
  (at level 61, c1 at next level, right associativity) : js_scope.
Notation "c1 ;; c2" := (bind c1 (fun _ => c2))
  (at level 61, right associativity) : js_scope.

Definition liftCompletion {A} (c : Completion A) : M A :=
  fun w => (c, w).

Definition getProps (e : Dom.Element) : M Props.t :=
  fun w => (Normal (props w (Dom.handle e)), w).

Definition modifyProps (e : Dom.Element) (f : Props.t -> Props.t) : M unit :=
  fun w =>
    (Normal tt,
     mkWorld (fun h => if (h =? Dom.handle e)%nat then f (props w h)
                       else props w h)
             (dispatched w) (logged w)).

(** [element.dispatchEvent(new Event(eventType, { bubbles: true }))] *)
Definition dispatchEvent (e : Dom.Element) (eventType : string) : M unit :=
  fun w =>
    (Normal tt,
     mkWorld (props w) (dispatched w ++ [(Dom.handle e, eventType)])
             (logged w)).

(** [logger.debug], [logger.info], [logger.error] *)
Definition logger (lvl : LogLevel) (msg : string) : M unit :=
  fun w =>
    (Normal tt, mkWorld (props w) (dispatched w) (logged w ++ [mkLog lvl msg])).

(** [xs.forEach(x => body(x))] *)
Fixpoint forEach {A} (xs : list A) (body : A -> M unit) : M unit :=
  match xs with
  | [] => ret tt
  | x :: rest => bind (body x) (fun _ => forEach rest body)
  end.

(** A [forEach] whose body updates one captured local variable. *)
Fixpoint forEachAcc {A S} (xs : list A) (body : S -> A -> M S) (s : S)
  : M S :=
  match xs with
  | [] => ret s
  | x :: rest => bind (body s x) (fun s' => forEachAcc rest body s')
  end.

(* ================================================================== *)
(** ** content/formFiller.ts *)

Module FormFiller.

Import Dom.
Local Open Scope js_scope.

(** *** findBestMapping *)

Section FindBestMapping.

Variable fieldMappings : list FieldMapping.t.
Variable field : DetectedField.t.

(** [m.id === field.id], [m.name === field.name] *)
Definition sameString (o : option string) (s : string) : bool :=
  match o with
  | Some x => x =? s
  | None => false
  end.

(** [m.type === field.type] *)
Definition sameType (o : option FieldType.t) (ft : FieldType.t) : bool :=
  match o with
  | Some x => FieldType.eqb x ft
  | None => false
  end.

(** Priority 1 *)
Definition idMatch : option FieldMapping.t :=
  if truthy (DetectedField.id field)
  then find (fun m => sameString (FieldMapping.id m) (DetectedField.id field))
            fieldMappings
  else None.

(** Priority 2 *)
Definition nameMatch : option FieldMapping.t :=
  if truthy (DetectedField.name field)
  then find (fun m =>
               sameString (FieldMapping.name m) (DetectedField.name field))
            fieldMappings
  else None.

Definition typeMatches : list FieldMapping.t :=
  filter (fun m =>
            negb (truthyOpt (FieldMapping.id m))
            && negb (truthyOpt (FieldMapping.name m))
            && sameType (FieldMapping.type m) (DetectedField.type field))
         fieldMappings.

Definition usefulAttrs : list string :=
  ["title"; "alt"; "aria-label"; "data-label"].

(** [if (v) keywords.push(v.toLowerCase())] *)
Definition pushLower (v : option string) (keywords : list string)
  : list string :=
  if truthyOpt v then keywords ++ [toLowerCase (orEmpty v)] else keywords.

(** The array [keywords] of priority 3: the texts of the field the
    keywords of a mapping are looked up in. *)
Definition fieldKeywords : list string :=
  let keywords := [] in
  let keywords := pushLower (DetectedField.label field) keywords in
  let keywords := pushLower (DetectedField.placeholder field) keywords in
  let keywords :=
    fold_left (fun keywords attr =>
                 pushLower (recordGet attr (DetectedField.attributes field))
                           keywords)
              usefulAttrs keywords in
  pushLower (Some (DetectedField.name field)) keywords.

(** The body of the innermost [forEach] of priority 3. *)
Definition scoreFieldKeyword (keywordLower : string) (score : nat)
           (fieldKeyword : string) : nat :=
  if includes fieldKeyword keywordLower then
    let score := S score in
    if fieldKeyword =? keywordLower then S score else score
  else score.

Definition scoreKeyword (keywords : list string) (score : nat)
           (keyword : string) : nat :=
  let keywordLower := toLowerCase keyword in
  fold_left (scoreFieldKeyword keywordLower) keywords score.

(** The score priority 3 gives to a mapping with keywords [mappingKeywords]. *)
Definition typeKeywordScore (keywords : list string)
           (mappingKeywords : list string) : nat :=
  fold_left (scoreKeyword keywords) mappingKeywords 0.

(** One turn of the loop that keeps [bestMatch] and [bestMatchScore]. *)
Definition bestStep (scoreOf : list string -> nat)
           (best : option FieldMapping.t * nat) (mapping : FieldMapping.t)
  : option FieldMapping.t * nat :=
  match FieldMapping.keywords mapping with
  | None => best
  | Some mappingKeywords =>
      let score := scoreOf mappingKeywords in
      if (snd best <? score)%nat then (Some mapping, score) else best
  end.

Definition bestOf (scoreOf : list string -> nat)
           (candidates : list FieldMapping.t) : option FieldMapping.t :=
  fst (fold_left (bestStep scoreOf) candidates (None, 0)).

(** Priority 3 *)
Definition typeKeywordMatch : option FieldMapping.t :=
  if (0 <? length typeMatches)%nat
  then bestOf (typeKeywordScore fieldKeywords) typeMatches
  else None.

Definition keywordMatches : list FieldMapping.t :=
  filter (fun m =>
            negb (truthyOpt (FieldMapping.id m))
            && negb (truthyOpt (FieldMapping.name m))
            && match FieldMapping.keywords m with
               | Some ks => (0 <? length ks)%nat
               | None => false
               end)
         fieldMappings.

Definition fieldText : string :=
  toLowerCase
    (join " "
       (map orEmpty
          (filter truthyOpt
             ([DetectedField.label field;
               DetectedField.placeholder field;
               Some (DetectedField.name field)]
              ++ map Some (recordValues (DetectedField.attributes field)))))).

Definition textScore (mappingKeywords : list string) : nat :=
  fold_left (fun score keyword =>
               if includes fieldText (toLowerCase keyword) then S score
               else score)
            mappingKeywords 0.

(** Priority 4 *)
Definition keywordMatch : option FieldMapping.t :=
  if (0 <? length keywordMatches)%nat
     && (truthyOpt (DetectedField.label field)
         || truthyOpt (DetectedField.placeholder field)
         || truthy (DetectedField.name field))
  then bestOf textScore keywordMatches
  else None.

(** Priority 5 *)
Definition typeFallback : option FieldMapping.t :=
  find (fun m => sameType (FieldMapping.type m) (DetectedField.type field))
       fieldMappings.

Definition findBestMapping : option FieldMapping.t :=
  match idMatch with
  | Some m => Some m
  | None =>
      match nameMatch with
      | Some m => Some m
      | None =>
          match typeKeywordMatch with
          | Some m => Some m
          | None =>
              match keywordMatch with
              | Some m => Some m
              | None => typeFallback
              end
          end
      end
  end.

End FindBestMapping.

(** *** Writing a mapping value into a control *)

(** [input.value = value]: the value converted to a string. *)
Definition valueToString (value : MappingValue) : string :=
  match value with
  | VString s => s
  | VBoolean true => "true"
  | VBoolean false => "false"
  | VArray xs => join "," xs
  end.

(** [input.checked = value]: the value converted to a boolean. *)
Definition valueToBoolean (value : MappingValue) : bool :=
  match value with
  | VString s => truthy s
  | VBoolean b => b
  | VArray _ => true
  end.

(** [input.checked !== value] *)
Definition checkedDiffers (checked : bool) (value : MappingValue) : bool :=
  match value with
  | VBoolean b => negb (Bool.eqb checked b)
  | _ => true
  end.

Definition triggerEvents (element : Element) (eventTypes : list string)
  : M unit :=
  forEach eventTypes (fun eventType => dispatchEvent element eventType).

Definition fillInputField (input : Element) (value : MappingValue) : M bool :=
  if readOnly input || disabled input then
    logger DEBUG ("Field is read-only or disabled: "
                  ++ orElse (Dom.id input) (Dom.name input))%string ;;
    ret false
  else
    modifyProps input (Props.setValue (valueToString value)) ;;
    triggerEvents input ["input"; "change"] ;;
    ret true.

Definition fillTextareaField (textarea : Element) (value : MappingValue)
  : M bool :=
  if readOnly textarea || disabled textarea then
    logger DEBUG ("Field is read-only or disabled: "
                  ++ orElse (Dom.id textarea) (Dom.name textarea))%string ;;
    ret false
  else
    modifyProps textarea (Props.setValue (valueToString value)) ;;
    triggerEvents textarea ["input"; "change"] ;;
    ret true.

Definition fillToggleField (input : Element) (value : MappingValue) : M bool :=
  if disabled input then
    logger DEBUG ("Field is disabled: "
                  ++ orElse (Dom.id input) (Dom.name input))%string ;;
    ret false
  else
    p <- getProps input ;;
    (if checkedDiffers (Props.checked p) value then
       modifyProps input (Props.setChecked (valueToBoolean value)) ;;
       triggerEvents input ["click"; "change"]
     else ret tt) ;;
    ret true.

(** *** fillSelectField *)

(** [Array.isArray(value) ? value : [value]] *)
Definition possibleValuesOf (value : MappingValue) : list MappingValue :=
  match value with
  | VArray xs => map VString xs
  | v => [v]
  end.

(** [val.toLowerCase()]: only a string has the method. *)
Definition valToLowerCase (val : MappingValue) : Completion string :=
  match val with
  | VString s => Normal (toLowerCase s)
  | _ => Throw TypeError
  end.

(** The inner [for (const val of possibleValues)] loop for one option:
    whether some candidate passes [test]; candidates after the first hit
    are not looked at. *)
Fixpoint anyValue (test : string -> bool) (possibleValues : list MappingValue)
  : Completion bool :=
  match possibleValues with
  | [] => Normal false
  | val :: rest =>
      match valToLowerCase val with
      | Throw e => Throw e
      | Normal checkValue =>
          if test checkValue then Normal true else anyValue test rest
      end
  end.

(** The outer [for (let i = 0; ...)] loop from index [i] on: the index of
    the first option some candidate matches. *)
Fixpoint findOption (test : HTMLOption.t -> string -> bool)
         (options : list HTMLOption.t) (i : Z)
         (possibleValues : list MappingValue) : Completion (option Z) :=
  match options with
  | [] => Normal None
  | option :: rest =>
      match anyValue (test option) possibleValues with
      | Throw e => Throw e
      | Normal true => Normal (Some i)
      | Normal false => findOption test rest (i + 1) possibleValues
      end
  end.

Definition exactTest (option : HTMLOption.t) (checkValue : string) : bool :=
  let optionValue := toLowerCase (HTMLOption.value option) in
  let optionText := toLowerCase (HTMLOption.text option) in
  (optionValue =? checkValue) || (optionText =? checkValue).

Definition substringTest (option : HTMLOption.t) (checkValue : string)
  : bool :=
  let optionValue := toLowerCase (HTMLOption.value option) in
  let optionText := toLowerCase (HTMLOption.text option) in
  includes optionValue checkValue || includes optionText checkValue.

Definition isPlaceholder (firstOption : HTMLOption.t) : bool :=
  (HTMLOption.value firstOption =? "")
  || includes (toLowerCase (HTMLOption.text firstOption)) "select"
  || includes (toLowerCase (HTMLOption.text firstOption)) "choose".

(** The guard of the last block of [fillSelectField]. *)
Definition fallbackGuard (matched : bool) (p : Props.t) : bool :=
  negb matched
  && (Props.selectedIndex p <=? 0)%Z
  && (1 <? length (Props.options p))%nat.

(** [select.selectedIndex = i; matched = true] when a loop found [i]. *)
Definition selectFound (select : Element) (found : option Z) : M bool :=
  match found with
  | Some i => modifyProps select (Props.setSelectedIndex i) ;; ret true
  | None => ret false
  end.

Definition fillSelectField (select : Element) (value : MappingValue)
  : M bool :=
  if disabled select then
    logger DEBUG ("Field is disabled: "
                  ++ orElse (Dom.id select) (Dom.name select))%string ;;
    ret false
  else
    let possibleValues := possibleValuesOf value in
    p <- getProps select ;;
    let options := Props.options p in
    found <- liftCompletion (findOption exactTest options 0 possibleValues) ;;
    matched <- selectFound select found ;;
    matched <- (if negb matched && (0 <? length options)%nat then
                  found <- liftCompletion
                             (findOption substringTest options 0
                                         possibleValues) ;;
                  selectFound select found
                else ret matched) ;;
    p <- getProps select ;;
    matched <- (if fallbackGuard matched p then
                  match options with
                  | firstOption :: _ =>
                      let isPlaceholder := isPlaceholder firstOption in
                      modifyProps select
                        (Props.setSelectedIndex
                           (if isPlaceholder && (1 <? length options)%nat
                            then 1%Z else 0%Z)) ;;
                      ret true
                  | [] => throw TypeError
                  end
                else ret matched) ;;
    (if matched then triggerEvents select ["change"] else ret tt) ;;
    ret matched.

(** *** fillField and fillForms *)

Section Filler.

Variable fieldMappings : list FieldMapping.t.

(** The body of the [try] block of [fillField]. *)
Definition fillFieldBody (field : DetectedField.t) : M bool :=
  match findBestMapping fieldMappings field with
  | None =>
      logger DEBUG ("No mapping found for field: "
                    ++ orElse (DetectedField.id field)
                              (DetectedField.name field))%string ;;
      ret false
  | Some mapping =>
      let value := FieldMapping.value mapping in
      match DetectedField.type field with
      | FieldType.TEXT | FieldType.EMAIL | FieldType.PASSWORD
      | FieldType.TELEPHONE | FieldType.NUMBER | FieldType.URL
      | FieldType.SEARCH | FieldType.DATE | FieldType.MONTH
      | FieldType.WEEK | FieldType.TIME | FieldType.DATETIME =>
          fillInputField (DetectedField.element field) value
      | FieldType.TEXTAREA =>
          fillTextareaField (DetectedField.element field) value
      | FieldType.SELECT =>
          fillSelectField (DetectedField.element field) value
      | FieldType.CHECKBOX | FieldType.RADIO =>
          fillToggleField (DetectedField.element field) value
      | _ =>
          logger DEBUG ("Unsupported field type: "
                        ++ FieldType.toString (DetectedField.type field))%string ;;
          ret false
      end
  end.

Definition fillField (field : DetectedField.t) : M bool :=
  tryCatch (fillFieldBody field)
           (fun error =>
              logger ERROR ("Error filling field: "
                            ++ orElse (DetectedField.id field)
                                      (DetectedField.name field))%string ;;
              ret false).

(** The [forEach] of [fillForms] with its counter [filledCount]. *)
Definition countStep (filledCount : nat) (field : DetectedField.t) : M nat :=
  filled <- fillField field ;;
  ret (if filled then S filledCount else filledCount).

Definition fillFields (detectedFields : list DetectedField.t) : M nat :=
  forEachAcc detectedFields countStep 0.

Variable findLabelForElement :
  Document -> Element -> Completion (option string).

(** [this.fieldDetector.detectFields()] run against the page: its logger
    calls join the trace, its exception propagates. *)
Definition detectFields (document : Document) : M (list DetectedField.t) :=
  fun w =>
    let r := FieldDetector.detectFields findLabelForElement document in
    (fst r, mkWorld (props w) (dispatched w) (logged w ++ snd r)).

Definition fillForms (document : Document) : M nat :=
  detectedFields <- detectFields document ;;
  filledCount <- fillFields detectedFields ;;
  logger INFO ("Filled " ++ ofNat filledCount ++ " out of "
               ++ ofNat (length detectedFields)
               ++ " detected fields")%string ;;
  ret filledCount.

End Filler.

End FormFiller.

(* ================================================================== *)
(** ** Notions the properties are stated with *)

Module Spec.

Import Dom.

(** An element the scanner must leave out: its [type] attribute is one of
    the five excluded kinds, or it carries a [disabled] attribute. *)
Definition excluded (e : Element) : Prop :=
  getAttribute e "type" = Some "hidden"
  \/ getAttribute e "type" = Some "submit"
  \/ getAttribute e "type" = Some "button"
  \/ getAttribute e "type" = Some "image"
  \/ getAttribute e "type" = Some "reset"
  \/ hasAttribute e "disabled" = true.

(** An element without identity: no id, no name and no placeholder, or only
    empty ones. *)
Definition anonymous (e : Element) : Prop :=
  orEmpty (getAttribute e "id") = ""
  /\ orEmpty (getAttribute e "name") = ""
  /\ orEmpty (getAttribute e "placeholder") = "".

(** A detected field carries an identity signal. *)
Definition identified (f : DetectedField.t) : Prop :=
  DetectedField.id f <> ""
  \/ DetectedField.name f <> ""
  \/ exists p, DetectedField.placeholder f = Some p /\ p <> "".

(** The form containers of a document and what scanning them yields. *)
Definition forms (d : Document) : list Element :=
  documentQuerySelectorAll d ["form"].

Definition formFields (findLabel : Document -> Element -> Completion (option string))
           (d : Document) : list DetectedField.t :=
  flat_map (fun form => fst (FieldDetector.detectFieldsInForm findLabel d form))
           (forms d).

(** The fields one scan unit yields, element by element. *)
Definition created (findLabel : Document -> Element -> Completion (option string))
           (d : Document) (inputs : list Element) : list DetectedField.t :=
  flat_map (fun input =>
              match FieldDetector.createDetectedField findLabel d input with
              | Normal (Some field) => [field]
              | _ => []
              end)
           inputs.

(** The [type] attribute values [determineFieldType] knows. *)
Definition knownInputTypes : list string :=
  ["text"; "email"; "password"; "tel"; "number"; "date"; "checkbox"; "radio";
   "url"; "search"; "color"; "range"; "file"; "month"; "week"; "time";
   "datetime-local"].

(** The score of a mapping as the sentence on the type and keyword tier
    reads: a keyword that occurs in some entry of the bag earns one point,
    and one more if it equals an entry, however many entries contain it. *)
Definition statedKeywordPoints (bag : list string) (keyword : string) : nat :=
  if existsb (fun entry => includes entry keyword) bag
  then (if existsb (fun entry => entry =? keyword) bag then 2 else 1)
  else 0.

Definition statedScore (bag : list string) (mappingKeywords : list string)
  : nat :=
  list_sum (map (statedKeywordPoints bag) mappingKeywords).

(** The points one keyword earns from one entry of the bag. *)
Definition entryPoints (keywordLower entry : string) : nat :=
  if includes entry keywordLower
  then (if entry =? keywordLower then 2 else 1)
  else 0.

(** What the loop over the candidates has established after a prefix
    [seen] of them: nothing scored above zero yet, or the best so far is
    the first of the highest score. *)
Definition bestInvariant (scoreOf : list string -> nat)
           (seen : list FieldMapping.t)
           (best : option FieldMapping.t * nat) : Prop :=
  match fst best with
  | None =>
      snd best = 0
      /\ forall m ks, In m seen -> FieldMapping.keywords m = Some ks ->
                      scoreOf ks = 0
  | Some w =>
      exists pre post ks,
        seen = pre ++ w :: post
        /\ FieldMapping.keywords w = Some ks
        /\ snd best = scoreOf ks
        /\ 0 < scoreOf ks
        /\ (forall m ks', In m pre -> FieldMapping.keywords m = Some ks' ->
                          scoreOf ks' < scoreOf ks)
        /\ (forall m ks', In m post -> FieldMapping.keywords m = Some ks' ->
                          scoreOf ks' <= scoreOf ks)
  end.

(** The candidate strings of a mapping value of the declared type
    [string | string[]]; a boolean has none. *)
Definition candidates (value : MappingValue) : option (list string) :=
  match value with
  | VString s => Some [s]
  | VArray xs => Some xs
  | VBoolean _ => None
  end.

(** The index, counted from [i], of the first option that passes [hit]. *)
Fixpoint firstIndexFrom (hit : HTMLOption.t -> bool)
         (options : list HTMLOption.t) (i : Z) : option Z :=
  match options with
  | [] => None
  | option :: rest =>
      if hit option then Some i else firstIndexFrom hit rest (i + 1)
  end.

(** An option whose value or text, in lower case, equals a candidate in
    lower case. *)
Definition exactHit (cs : list string) (option : HTMLOption.t) : bool :=
  existsb (fun c => FormFiller.exactTest option (toLowerCase c)) cs.

(** An option whose value or text, in lower case, contains a candidate in
    lower case. *)
Definition substringHit (cs : list string) (option : HTMLOption.t) : bool :=
  existsb (fun c => FormFiller.substringTest option (toLowerCase c)) cs.

(** The exact pass, then the substring pass. *)
Definition passesFind (cs : list string) (options : list HTMLOption.t)
  : option Z :=
  match firstIndexFrom (exactHit cs) options 0 with
  | Some i => Some i
  | None => firstIndexFrom (substringHit cs) options 0
  end.

(** The option the placeholder-skip fallback selects. *)
Definition fallbackIndex (options : list HTMLOption.t) : Z :=
  match options with
  | firstOption :: _ => if FormFiller.isPlaceholder firstOption then 1 else 0
  | [] => 0
  end.

(** The page after [select.selectedIndex = i] and a [change] event. *)
Definition selected (select : Dom.Element) (i : Z) (w : World) : World :=
  mkWorld (fun h => if (h =? Dom.handle select)%nat
                    then Props.setSelectedIndex i (props w h)
                    else props w h)
          (dispatched w ++ [(Dom.handle select, "change")])
          (logged w).

(** The page after [input.checked = b] and the [click] and [change]
    events. *)
Definition toggled (input : Dom.Element) (b : bool) (w : World) : World :=
  mkWorld (fun h => if (h =? Dom.handle input)%nat
                    then Props.setChecked b (props w h)
                    else props w h)
          ((dispatched w ++ [(Dom.handle input, "click")])
             ++ [(Dom.handle input, "change")])
          (logged w).

(** The number of fields a list of outcomes counts as filled. *)
Definition filledCount (results : list bool) : nat :=
  length (filter (fun filled => filled) results).

(** The outcome of every field of a fill, in order, each field filled in
    the state the ones before it left. *)
Fixpoint outcomes (fieldMappings : list FieldMapping.t)
         (fields : list DetectedField.t) (w : World) : list bool :=
  match fields with
  | [] => []
  | field :: rest =>
      match FormFiller.fillField fieldMappings field w with
      | (Normal filled, w') => filled :: outcomes fieldMappings rest w'
      | (Throw _, w') => false :: outcomes fieldMappings rest w'
      end
  end.

(** The state after filling every field of a list. *)
Fixpoint afterFill (fieldMappings : list FieldMapping.t)
         (fields : list DetectedField.t) (w : World) : World :=
  match fields with
  | [] => w
  | field :: rest =>
      afterFill fieldMappings rest
                (snd (FormFiller.fillField fieldMappings field w))
  end.

End Spec.

(* ================================================================== *)
(** ** Sample pages, fields and mapping tables *)

Module Examples.

Import Dom.

(** A label finder that only looks at [aria-label]. *)
Definition ariaLabel (d : Document) (e : Element)
  : Completion (option string) :=
  Normal (getAttribute e "aria-label").

Definition tokenInput : Element :=
  mkElement 3 "input" [("type", "hidden"); ("name", "token")] [].

Definition searchInput : Element :=
  mkElement 4 "input" [("id", "q"); ("type", "search")] [].

Definition tokenForm : Element := mkElement 2 "form" [] [tokenInput].

(** A page whose only form holds nothing but a hidden input, with a search
    box outside the form. *)
Definition hiddenOnlyBody : Element :=
  mkElement 1 "body" [] [tokenForm; searchInput].

Definition hiddenOnlyPage : Document :=
  mkDocument (mkElement 0 "html" [] [hiddenOnlyBody]) (Some hiddenOnlyBody).

Definition searchField : DetectedField.t :=
  DetectedField.mk "q" "" FieldType.SEARCH searchInput None (Some "")
                   [("id", "q"); ("type", "search")].

Definition emailInput : Element :=
  mkElement 3 "input"
            [("id", "email"); ("name", "email"); ("type", "email");
             ("aria-label", "Email")] [].

Definition genderSelect : Element :=
  mkElement 4 "select" [("id", "gender"); ("name", "gender")] [].

Definition termsInput : Element :=
  mkElement 5 "input" [("id", "terms"); ("type", "checkbox")] [].

Definition submitInput : Element :=
  mkElement 6 "input" [("id", "go"); ("type", "submit")] [].

Definition bareInput : Element := mkElement 7 "input" [("type", "text")] [].

Definition signupForm : Element :=
  mkElement 2 "form" [("id", "signup")]
            [emailInput; genderSelect; termsInput; submitInput; bareInput].

Definition signupBody : Element := mkElement 1 "body" [] [signupForm].

Definition signupPage : Document :=
  mkDocument (mkElement 0 "html" [] [signupBody]) (Some signupBody).

Definition emailField : DetectedField.t :=
  DetectedField.mk "email" "email" FieldType.EMAIL emailInput (Some "Email")
                   (Some "")
                   [("id", "email"); ("name", "email"); ("type", "email");
                    ("aria-label", "Email")].

Definition genderField : DetectedField.t :=
  DetectedField.mk "gender" "gender" FieldType.SELECT genderSelect None
                   (Some "") [("id", "gender"); ("name", "gender")].

Definition termsField : DetectedField.t :=
  DetectedField.mk "terms" "" FieldType.CHECKBOX termsInput None (Some "")
                   [("id", "terms"); ("type", "checkbox")].

(** The options "", "Select...", "male", "female", each with its text for
    value. *)
Definition genderOptions : list HTMLOption.t :=
  [HTMLOption.mk "" ""; HTMLOption.mk "Select..." "Select...";
   HTMLOption.mk "male" "male"; HTMLOption.mk "female" "female"].

(** A page state in which every control has the gender options, the given
    selected index and checked state, and nothing has happened yet. *)
Definition page (selectedIndex : Z) (checked : bool) : World :=
  mkWorld (fun _ => Props.mk "" checked genderOptions selectedIndex) [] [].

Definition emailByType : FieldMapping.t :=
  FieldMapping.mk None None (Some FieldType.EMAIL) None None
                  (Some ["email"; "e-mail"]) (VString "test@example.com").

Definition emailById : FieldMapping.t :=
  FieldMapping.mk (Some "email") None None None None None
                  (VString "id@example.com").

Definition genderByType : FieldMapping.t :=
  FieldMapping.mk None None (Some FieldType.SELECT) None None
                  (Some ["gender"]) (VString "man").

(** A select mapping whose value is a boolean: [fillSelectField] calls
    [toLowerCase] on it. *)
Definition genderBoolean : FieldMapping.t :=
  FieldMapping.mk None None (Some FieldType.SELECT) None None
                  (Some ["gender"]) (VBoolean true).

Definition termsByType : FieldMapping.t :=
  FieldMapping.mk None None (Some FieldType.CHECKBOX) None None
                  (Some ["terms"; "agree"]) (VBoolean true).

End Examples.

(* ================================================================== *)
(** ** utils/logger.ts *)

Module Logger.

(** The state of the logger: the two private fields of the class. *)
Record t := mk { enabled : bool; logLevel : LogLevel }.

(** [new Logger()] *)
Definition initial : t := mk true INFO.

Definition setEnabled (enabled : bool) (lg : t) : t := mk enabled (logLevel lg).

Definition setLogLevel (level : LogLevel) (lg : t) : t := mk (enabled lg) level.

Definition getLevelValue (level : LogLevel) : nat :=
  match level with
  | DEBUG => 0
  | INFO => 1
  | WARN => 2
  | ERROR => 3
  end.

Definition shouldLog (lg : t) (level : LogLevel) : bool :=
  enabled lg && (getLevelValue (logLevel lg) <=? getLevelValue level)%nat.

(** What the logger has produced: the lines written to the console and
    the LOG messages handed to the background script, in order. *)
Record Output := mkOutput { console : list LogEntry; relayed : list LogEntry }.

Section Relay.

(** [chrome.runtime.sendMessage] where [chrome.runtime] exists ([None]
    where it does not): it accepts the message or throws. *)
Variable runtime : option (LogEntry -> Completion unit).

(** The body of the [try] block of [sendLogToBackground]. *)
Definition sendMessage (send : LogEntry -> Completion unit) (entry : LogEntry)
           (out : Output) : Completion unit * Output :=
  match send entry with
  | Normal _ => (Normal tt, mkOutput (console out) (relayed out ++ [entry]))
  | Throw e => (Throw e, out)
  end.

Definition sendLogToBackground (level : LogLevel) (message : string)
           (out : Output) : Completion unit * Output :=
  match runtime with
  | Some send =>
      match sendMessage send (mkLog level message) out with
      | (Normal _, out') => (Normal tt, out')
      | (Throw _, out') => (Normal tt, out')
      end
  | None => (Normal tt, out)
  end.

(** The common shape of [debug], [info], [warn] and [error]. *)
Definition write (lg : t) (level : LogLevel) (message : string) (out : Output)
  : Completion unit * Output :=
  if shouldLog lg level then
    sendLogToBackground level message
      (mkOutput (console out ++ [mkLog level message]) (relayed out))
  else (Normal tt, out).

Definition debug (lg : t) := write lg DEBUG.
Definition info (lg : t) := write lg INFO.
Definition warn (lg : t) := write lg WARN.
Definition error (lg : t) := write lg ERROR.

End Relay.

End Logger.

(* ================================================================== *)
(** ** background/background.ts: the log buffer *)

Module Background.

(** [xs.slice(-n)]: the last [n] elements, all of them when there are
    fewer. *)
Definition sliceLast {A} (n : nat) (xs : list A) : list A :=
  skipn (length xs - n) xs.

Definition maxLogs : nat := 1000.

Section Logs.

(** The values a message carries, with their truthiness. *)
Variable Value : Type.
Variable truthyValue : Value -> bool.

(** The payload of a LOG message: an object with its properties, or
    anything else ([undefined], [null], a primitive). *)
Inductive Payload :=
| NotAnObject
| Object (properties : list (string * Value)).

Record StoredLog :=
  mkStored { level : Value; message : Value; timestamp : Value }.

Fixpoint property (key : string) (properties : list (string * Value))
  : option Value :=
  match properties with
  | [] => None
  | (k, v) :: rest => if k =? key then Some v else property key rest
  end.

(** [logData.timestamp || new Date().toISOString()], [now] being the
    clock's string. *)
Definition timestampOf (properties : list (string * Value)) (now : Value)
  : Value :=
  match property "timestamp" properties with
  | Some t => if truthyValue t then t else now
  | None => now
  end.

(** The [case MessageType.LOG] branch of the message listener: the new
    contents of [this.logs]. *)
Definition handleLog (now : Value) (logData : Payload) (logs : list StoredLog)
  : list StoredLog :=
  match logData with
  | Object properties =>
      match property "level" properties, property "message" properties with
      | Some level, Some message =>
          let logs :=
            logs ++ [mkStored level message (timestampOf properties now)] in
          if (maxLogs <? length logs)%nat then sliceLast maxLogs logs
          else logs
      | _, _ => logs
      end
  | NotAnObject => logs
  end.

(** The buffer after a run of LOG messages, each with the clock reading at
    its arrival. *)
Definition handleLogs (messages : list (Value * Payload))
           (logs : list StoredLog) : list StoredLog :=
  fold_left (fun logs m => handleLog (fst m) (snd m) logs) messages logs.

(** The record a well-formed payload is stored as, if it is one. *)
Definition accepted (m : Value * Payload) : list StoredLog :=
  match snd m with
  | Object properties =>
      match property "level" properties, property "message" properties with
      | Some level, Some message =>
          [mkStored level message (timestampOf properties (fst m))]
      | _, _ => []
      end
  | NotAnObject => []
  end.

End Logs.

End Background.

(* ================================================================== *)
(** ** utils/storage.ts: the default mapping table *)

Module Storage.

Definition typed (type : FieldType.t) (keywords : list string)
           (value : MappingValue) : FieldMapping.t :=
  FieldMapping.mk None None (Some type) None None (Some keywords) value.

Definition named (name : string) (keywords : list string)
           (value : MappingValue) : FieldMapping.t :=
  FieldMapping.mk None (Some name) None None None (Some keywords) value.

Definition keyed (keywords : list string) (value : MappingValue)
  : FieldMapping.t :=
  FieldMapping.mk None None None None None (Some keywords) value.

Definition emailMapping : FieldMapping.t :=
  typed FieldType.EMAIL ["email"; "e-mail"] (VString "test@example.com").

Definition firstNameMapping : FieldMapping.t :=
  named "firstName" ["first name"; "firstname"; "given name"; "forename"]
        (VString "John").

Definition lastNameMapping : FieldMapping.t :=
  named "lastName" ["last name"; "lastname"; "surname"; "family name"]
        (VString "Doe").

Definition DEFAULT_FIELD_MAPPINGS : list FieldMapping.t :=
  [ emailMapping;
    typed FieldType.PASSWORD ["password"; "passwd"; "pass"]
          (VString "Password123!");
    firstNameMapping;
    lastNameMapping;
    typed FieldType.TELEPHONE ["phone"; "mobile"; "cell"; "telephone"]
          (VString "555-123-4567");
    keyed ["address"; "street"] (VString "123 Main St");
    keyed ["city"; "town"] (VString "New York");
    keyed ["state"; "province"; "region"] (VString "NY");
    keyed ["zip"; "postal"; "postcode"] (VString "10001");
    keyed ["country"] (VString "United States");
    typed FieldType.DATE ["birth"; "dob"; "date of birth"]
          (VString "1990-01-01");
    typed FieldType.CHECKBOX ["terms"; "agree"; "consent"; "accept"]
          (VBoolean true);
    typed FieldType.CHECKBOX ["newsletter"; "subscribe"; "updates"]
          (VBoolean false);
    typed FieldType.TEXTAREA ["message"; "comments"; "feedback"]
          (VString "This is a test message from the form filler extension.");
    typed FieldType.SELECT ["gender"]
          (VArray ["Male"; "Female"; "Other"; "Prefer not to say"]);
    typed FieldType.SELECT ["title"; "prefix"; "salutation"]
          (VArray ["Mr."; "Mrs."; "Ms."; "Dr."; "Prof."]);
    typed FieldType.URL ["website"; "site"; "url"; "web"]
          (VString "https://example.com");
    typed FieldType.NUMBER ["age"] (VString "30") ].

End Storage.

(* ================================================================== *)
(** ** Further notions the properties are stated with *)

Module Notions.

Import Dom.

(** The field types [fillField] hands to [fillInputField]. *)
Definition textLike (type : FieldType.t) : bool :=
  match type with
  | FieldType.TEXT | FieldType.EMAIL | FieldType.PASSWORD
  | FieldType.TELEPHONE | FieldType.NUMBER | FieldType.URL
  | FieldType.SEARCH | FieldType.DATE | FieldType.MONTH
  | FieldType.WEEK | FieldType.TIME | FieldType.DATETIME => true
  | _ => false
  end.

(** The field types that fall to the [default] branch of [fillField]. *)
Definition unsupported (type : FieldType.t) : bool :=
  match type with
  | FieldType.COLOR | FieldType.RANGE | FieldType.FILE
  | FieldType.UNKNOWN => true
  | _ => false
  end.

(** The field types an [input] element can be given. *)
Definition inputKinds : list FieldType.t :=
  [FieldType.TEXT; FieldType.EMAIL; FieldType.PASSWORD; FieldType.TELEPHONE;
   FieldType.NUMBER; FieldType.DATE; FieldType.CHECKBOX; FieldType.RADIO;
   FieldType.URL; FieldType.SEARCH; FieldType.COLOR; FieldType.RANGE;
   FieldType.FILE; FieldType.MONTH; FieldType.WEEK; FieldType.TIME;
   FieldType.DATETIME].

(** A control the scanner is to report: not skipped, with an identity
    signal, and whose label lookup returns. *)
Definition eligible (findLabel : Document -> Element -> Completion (option string))
           (d : Document) (e : Element) : Prop :=
  FieldDetector.isSkipped e = false
  /\ (orEmpty (getAttribute e "id") <> ""
      \/ orEmpty (getAttribute e "name") <> ""
      \/ orEmpty (getAttribute e "placeholder") <> "")
  /\ exists label, findLabel d e = Normal label.

(** The controls of a scan unit whose label lookup throws. *)
Definition failing (findLabel : Document -> Element -> Completion (option string))
           (d : Document) (inputs : list Element) : list Element :=
  filter (fun input =>
            match FieldDetector.createDetectedField findLabel d input with
            | Throw _ => true
            | Normal _ => false
            end)
         inputs.


(** The events of a trace that target one of the given elements. *)
Definition targets (handles : list nat) (events : list (nat * string)) : Prop :=
  forall ev, In ev events -> In (fst ev) handles.


(** A radio button: an [input] whose [type] attribute is radio in any
    letter case.  Checking one unchecks the others of its group. *)
Definition isRadio (e : Element) : bool :=
  (localName e =? "input")
  && match getAttribute e "type" with
     | Some t => toLowerCase t =? "radio"
     | None => false
     end.

(** The controls that hold a single-line string exactly as a script
    assigns it: a [textarea], and an [input] without [type] attribute or
    of type text, search, password or tel. *)
Definition holdsAssigned (e : Element) : bool :=
  (localName e =? "textarea")
  || ((localName e =? "input")
      && match getAttribute e "type" with
         | Some t => existsb (String.eqb t)
                             ["text"; "search"; "password"; "tel"]
         | None => true
         end).

(** A string without line feed and carriage return. *)
Fixpoint singleLine (s : string) : bool :=
  match s with
  | EmptyString => true
  | String c s' =>
      negb ((nat_of_ascii c =? 10)%nat || (nat_of_ascii c =? 13)%nat)
      && singleLine s'
  end.

(** The page after one logger call. *)
Definition noted (lvl : LogLevel) (msg : string) (w : World) : World :=
  mkWorld (props w) (dispatched w) (logged w ++ [mkLog lvl msg]).

(** The page after [input.value = s] and the [input] and [change]
    events. *)
Definition written (input : Element) (s : string) (w : World) : World :=
  mkWorld (fun h => if (h =? handle input)%nat
                    then Props.setValue s (props w h)
                    else props w h)
          ((dispatched w ++ [(handle input, "input")])
             ++ [(handle input, "change")])
          (logged w).

(** The ways [fillField] can end on an element: skipped with one logger
    call, the value written, an option selected, the state toggled, a
    toggle found in place, or a select left as it was. *)
Inductive FillShape (element : Element) (w : World)
  : Completion bool * World -> Prop :=
| Skipped lvl msg : FillShape element w (Normal false, noted lvl msg w)
| Written s : FillShape element w (Normal true, written element s w)
| Selected i : FillShape element w (Normal true, Spec.selected element i w)
| Toggled b : FillShape element w (Normal true, Spec.toggled element b w)
| InPlace : FillShape element w (Normal true, w)
| Untouched : FillShape element w (Normal false, w).

End Notions.

Module Samples.

Import Dom.

Definition firstNameInput : Element :=
  mkElement 11 "input"
            [("type", "text"); ("id", "firstName"); ("name", "firstName");
             ("placeholder", "Enter your first name")] [].

Definition firstNameField : DetectedField.t :=
  DetectedField.mk "firstName" "firstName" FieldType.TEXT firstNameInput
                   (Some "First Name") (Some "Enter your first name")
                   [("type", "text"); ("id", "firstName");
                    ("name", "firstName");
                    ("placeholder", "Enter your first name")].

(** The same field as a label finder that only reads [aria-label] sees
    it. *)
Definition firstNameScanned : DetectedField.t :=
  DetectedField.mk "firstName" "firstName" FieldType.TEXT firstNameInput
                   None (Some "Enter your first name")
                   [("type", "text"); ("id", "firstName");
                    ("name", "firstName");
                    ("placeholder", "Enter your first name")].

Definition lockedInput : Element :=
  mkElement 12 "input"
            [("type", "text"); ("name", "firstName"); ("readonly", "")] [].

Definition lockedField : DetectedField.t :=
  DetectedField.mk "" "firstName" FieldType.TEXT lockedInput None (Some "")
                   [("type", "text"); ("name", "firstName");
                    ("readonly", ""); ("isAutoComplete", "true")].

Definition colorInput : Element :=
  mkElement 13 "input" [("type", "color"); ("name", "tint")] [].

Definition colorField : DetectedField.t :=
  DetectedField.mk "" "tint" FieldType.COLOR colorInput None (Some "")
                   [("type", "color"); ("name", "tint")].

(** The one-character string made of a double quote. *)
Definition quote : string := String (ascii_of_nat 34) EmptyString.

Definition brokenInput : Element :=
  mkElement 14 "input" [("type", "text"); ("id", ("a" ++ quote ++ "b")%string)]
            [].

(** A label finder that rejects an id with a double quote in it, as the
    selector parser does, and reads [aria-label] otherwise. *)
Definition strictLabel (d : Document) (e : Element)
  : Completion (option string) :=
  if includes (orEmpty (getAttribute e "id")) quote
  then Throw SyntaxError
  else Normal (getAttribute e "aria-label").

Definition mixedForm : Element :=
  mkElement 10 "form" [] [firstNameInput; brokenInput; colorInput].

Definition mixedBody : Element := mkElement 9 "body" [] [mixedForm].

Definition mixedPage : Document :=
  mkDocument (mkElement 8 "html" [] [mixedBody]) (Some mixedBody).

Definition tintByName : FieldMapping.t :=
  FieldMapping.mk None (Some "tint") None None None None (VString "#ff0000").

(** A document without body and without form: an SVG image opened in a
    tab. *)
Definition bodylessPage : Document :=
  mkDocument (mkElement 20 "svg" [] [mkElement 21 "circle" [("r", "4")] []])
             None.

Definition sizeOptions : list HTMLOption.t :=
  [HTMLOption.mk "xl" "Extra large"; HTMLOption.mk "l" "Large";
   HTMLOption.mk "" "None"].

Definition sizePage (selectedIndex : Z) : World :=
  mkWorld (fun _ => Props.mk "" false sizeOptions selectedIndex) [] [].

End Samples.

(* ================================================================== *)
(** ** The scanner *)

Section ScannerFacts.

Import Dom.

Variable findLabel : Document -> Element -> Completion (option string).
Variable doc : Document.

Lemma detectStep_fields inputs acc :
  fst (fold_left (FieldDetector.detectStep findLabel doc) inputs acc)
  = fst acc ++ Spec.created findLabel doc inputs.
Proof.
  revert acc. induction inputs as [|e inputs IH]; intro acc; simpl.
  - now rewrite app_nil_r.
  - rewrite IH. unfold FieldDetector.detectStep.
    destruct (FieldDetector.createDetectedField findLabel doc e) as [[f|]|err];
      simpl; try reflexivity.
    now rewrite <- app_assoc.
Qed.

Lemma detectStep_log inputs acc entry :
  In entry (snd (fold_left (FieldDetector.detectStep findLabel doc) inputs acc)) ->
  In entry (snd acc) \/ entry = mkLog ERROR "Error detecting field".
Proof.
  revert acc. induction inputs as [|e inputs IH]; intro acc; simpl.
  - now left.
  - intro H. apply IH in H. destruct H as [H|H]; [|now right].
    unfold FieldDetector.detectStep in H.
    destruct (FieldDetector.createDetectedField findLabel doc e) as [[f|]|err];
      simpl in H; auto.
    apply in_app_or in H. destruct H as [H|[H|[]]]; auto.
Qed.

Lemma detectFieldsInElement_fields e :
  fst (FieldDetector.detectFieldsInElement findLabel doc e)
  = Spec.created findLabel doc
      (querySelectorAll e ["input"; "select"; "textarea"]).
Proof.
  unfold FieldDetector.detectFieldsInElement. now rewrite detectStep_fields.
Qed.

Lemma formStep_fields forms acc :
  fst (fold_left (FieldDetector.formStep findLabel doc) forms acc)
  = fst acc
    ++ flat_map (fun form =>
                   fst (FieldDetector.detectFieldsInForm findLabel doc form))
                forms.
Proof.
  revert acc. induction forms as [|form forms IH]; intro acc; simpl.
  - now rewrite app_nil_r.
  - rewrite IH. simpl. now rewrite <- app_assoc.
Qed.

Lemma formStep_log forms acc entry :
  In entry (snd (fold_left (FieldDetector.formStep findLabel doc) forms acc)) ->
  In entry (snd acc) \/ entry = mkLog ERROR "Error detecting field".
Proof.
  revert acc. induction forms as [|form forms IH]; intro acc; simpl.
  - now left.
  - intro H. apply IH in H. destruct H as [H|H]; [|now right].
    simpl in H. apply in_app_or in H. destruct H as [H|H]; [now left|].
    unfold FieldDetector.detectFieldsInForm,
      FieldDetector.detectFieldsInElement in H.
    apply detectStep_log in H. destruct H as [[]|H]. now right.
Qed.

Lemma formStep_log_keeps forms acc entry :
  In entry (snd acc) ->
  In entry (snd (fold_left (FieldDetector.formStep findLabel doc) forms acc)).
Proof.
  revert acc. induction forms as [|form forms IH]; intro acc; simpl; auto.
  intro H. apply IH. simpl. apply in_or_app. now left.
Qed.

(** Every created field comes from one scanned element. *)
Lemma created_origin inputs f :
  In f (Spec.created findLabel doc inputs) ->
  exists e, In e inputs
            /\ FieldDetector.createDetectedField findLabel doc e
               = Normal (Some f).
Proof.
  unfold Spec.created. rewrite in_flat_map. intros [e [He Hf]].
  exists e. split; [exact He|].
  destruct (FieldDetector.createDetectedField findLabel doc e) as [[g|]|err];
    simpl in Hf; try contradiction.
  destruct Hf as [->|[]]. reflexivity.
Qed.

(** What [detectFields] computes, in terms of its two kinds of scan. *)
Lemma detectFields_unfold :
  FieldDetector.detectFields findLabel doc
  = let scanned :=
      fold_left (FieldDetector.formStep findLabel doc) (Spec.forms doc)
                ([], [mkLog DEBUG "Detecting form fields"]) in
    if (length (Spec.formFields findLabel doc) =? 0)%nat then
      match body doc with
      | None =>
          (Throw TypeError,
           snd scanned ++ [mkLog DEBUG FieldDetector.directScanMessage])
      | Some b =>
          let pageFields :=
            FieldDetector.detectFieldsInElement findLabel doc b in
          (Normal (Spec.formFields findLabel doc ++ fst pageFields),
           (snd scanned ++ [mkLog DEBUG FieldDetector.directScanMessage])
             ++ snd pageFields
             ++ [mkLog INFO
                   (FieldDetector.detectedMessage
                      (length (Spec.formFields findLabel doc
                               ++ fst pageFields)))])
      end
    else
      (Normal (Spec.formFields findLabel doc),
       snd scanned
         ++ [mkLog INFO
               (FieldDetector.detectedMessage
                  (length (Spec.formFields findLabel doc)))]).
Proof.
  unfold FieldDetector.detectFields, Spec.formFields, Spec.forms.
  pose proof (formStep_fields (documentQuerySelectorAll doc ["form"])
                ([], [mkLog DEBUG "Detecting form fields"])) as Hf.
  simpl fst in Hf. simpl app in Hf.
  destruct (fold_left (FieldDetector.formStep findLabel doc)
              (documentQuerySelectorAll doc ["form"])
              ([], [mkLog DEBUG "Detecting form fields"])) as [fs lg].
  simpl in Hf. subst fs. simpl. reflexivity.
Qed.

(** Every field of the result comes from an [input], [select] or
    [textarea] element that [createDetectedField] accepted. *)
Lemma detectFields_origin fields f :
  fst (FieldDetector.detectFields findLabel doc) = Normal fields ->
  In f fields ->
  exists e,
    matchesSelector ["input"; "select"; "textarea"] e = true
    /\ FieldDetector.createDetectedField findLabel doc e = Normal (Some f).
Proof.
  rewrite detectFields_unfold. cbv zeta.
  assert (Hform : In f (Spec.formFields findLabel doc) ->
                  exists e,
                    matchesSelector ["input"; "select"; "textarea"] e = true
                    /\ FieldDetector.createDetectedField findLabel doc e
                       = Normal (Some f)).
  { unfold Spec.formFields. rewrite in_flat_map. intros [form [_ Hin]].
    unfold FieldDetector.detectFieldsInForm in Hin.
    rewrite detectFieldsInElement_fields in Hin.
    apply created_origin in Hin. destruct Hin as [e [He Hc]].
    exists e. split; [|exact Hc].
    unfold querySelectorAll in He. apply filter_In in He. tauto. }
  destruct (length (Spec.formFields findLabel doc) =? 0)%nat.
  - destruct (body doc) as [b|]; simpl; [|discriminate].
    intros [= <-] Hin. apply in_app_or in Hin. destruct Hin as [Hin|Hin].
    + auto.
    + rewrite detectFieldsInElement_fields in Hin.
      apply created_origin in Hin. destruct Hin as [e [He Hc]].
      exists e. split; [|exact Hc].
      unfold querySelectorAll in He. apply filter_In in He. tauto.
  - simpl. intros [= <-]. exact Hform.
Qed.

End ScannerFacts.

Section CreatedFieldFacts.

Import Dom.

Variable findLabel : Document -> Element -> Completion (option string).
Variable doc : Document.

(** What is known of a field [createDetectedField] returned. *)
Lemma createDetectedField_some e f :
  FieldDetector.createDetectedField findLabel doc e = Normal (Some f) ->
  FieldDetector.isSkipped e = false
  /\ (truthy (orEmpty (getAttribute e "id"))
      || truthy (orEmpty (getAttribute e "name"))
      || truthy (orEmpty (getAttribute e "placeholder"))) = true
  /\ DetectedField.element f = e
  /\ DetectedField.id f = orEmpty (getAttribute e "id")
  /\ DetectedField.name f = orEmpty (getAttribute e "name")
  /\ DetectedField.placeholder f = Some (orEmpty (getAttribute e "placeholder"))
  /\ DetectedField.type f = FieldDetector.determineFieldType e
  /\ findLabel doc e = Normal (DetectedField.label f).
Proof.
  unfold FieldDetector.createDetectedField.
  destruct (FieldDetector.isSkipped e) eqn:Hs; [discriminate|].
  destruct (negb (truthy (orEmpty (getAttribute e "id")))
            && negb (truthy (orEmpty (getAttribute e "name")))
            && negb (truthy (orEmpty (getAttribute e "placeholder")))) eqn:Ha;
    [discriminate|].
  destruct (findLabel doc e) as [label|err]; [|discriminate].
  intros [= <-]. simpl. repeat split.
  destruct (truthy (orEmpty (getAttribute e "id"))),
    (truthy (orEmpty (getAttribute e "name"))),
    (truthy (orEmpty (getAttribute e "placeholder"))); simpl in *;
    congruence.
Qed.

End CreatedFieldFacts.

Section ControlFacts.

Import Dom.

Lemma truthy_true s : truthy s = true <-> s <> "".
Proof.
  unfold truthy. rewrite negb_true_iff. split.
  - intros H ->. discriminate.
  - intro H. apply String.eqb_neq. exact H.
Qed.

Lemma isSkipped_false e :
  FieldDetector.isSkipped e = false -> ~ Spec.excluded e.
Proof.
  unfold FieldDetector.isSkipped, Spec.excluded, attrIs.
  intros H. repeat (apply orb_false_iff in H; destruct H as [H ?]).
  intros [E|[E|[E|[E|[E|E]]]]];
    try (rewrite E in *; simpl in *; discriminate); congruence.
Qed.

Lemma matchesSelector_controls e :
  matchesSelector ["input"; "select"; "textarea"] e = true ->
  localName e = "input" \/ localName e = "select" \/ localName e = "textarea".
Proof.
  unfold matchesSelector. simpl. rewrite !orb_true_iff, !String.eqb_eq.
  intuition discriminate.
Qed.

Lemma inputFieldType_known t :
  FieldDetector.inputFieldType t <> FieldType.UNKNOWN.
Proof.
  unfold FieldDetector.inputFieldType. destruct t as [s|]; [|discriminate].
  repeat match goal with
         | |- context [if ?b then _ else _] => destruct b; [discriminate|]
         end.
  discriminate.
Qed.

Lemma inputFieldType_default s :
  ~ In s Spec.knownInputTypes ->
  FieldDetector.inputFieldType (Some s) = FieldType.TEXT.
Proof.
  unfold FieldDetector.inputFieldType, Spec.knownInputTypes. intro H.
  repeat match goal with
         | |- context [if ?x =? ?y then _ else _] =>
             destruct (String.eqb_spec x y) as [->|_];
             [exfalso; apply H; simpl; tauto|]
         end.
  reflexivity.
Qed.

Lemma determineFieldType_control e :
  (localName e = "textarea" ->
   FieldDetector.determineFieldType e = FieldType.TEXTAREA)
  /\ (localName e = "select" ->
      FieldDetector.determineFieldType e = FieldType.SELECT)
  /\ (localName e = "input" ->
      FieldDetector.determineFieldType e
      = FieldDetector.inputFieldType (getAttribute e "type")).
Proof.
  unfold FieldDetector.determineFieldType, tagName.
  repeat split; intros ->; reflexivity.
Qed.

End ControlFacts.

Section ScannerProperties.

Import Dom.

Variable findLabel : Document -> Element -> Completion (option string).
Variable doc : Document.

(** C8.  Exclusion invariant: whatever the document, an element whose
    [type] attribute is hidden, submit, button, image or reset, or that
    carries a [disabled] attribute, is the element of no field of the
    result of [detectFields]. *)
Theorem detect_excludes_buttons_and_disabled fields e :
  fst (FieldDetector.detectFields findLabel doc) = Normal fields ->
  Spec.excluded e ->
  forall f, In f fields -> DetectedField.element f <> e.
Proof.
  intros Hd Hex f Hin Heq.
  destruct (detectFields_origin findLabel doc fields f Hd Hin)
    as [e' [_ Hc]].
  apply createDetectedField_some in Hc.
  destruct Hc as [Hs [_ [He _]]].
  apply isSkipped_false in Hs. apply Hs. congruence.
Qed.

(** C9.  Identity invariant: every field of the result of [detectFields]
    has a non-empty id, name or placeholder, these are the ones of its
    element, and an element without any of the three is the element of no
    field of the result. *)
Theorem detect_fields_are_identified fields :
  fst (FieldDetector.detectFields findLabel doc) = Normal fields ->
  forall f, In f fields ->
    Spec.identified f
    /\ DetectedField.id f = orEmpty (getAttribute (DetectedField.element f) "id")
    /\ DetectedField.name f
       = orEmpty (getAttribute (DetectedField.element f) "name")
    /\ DetectedField.placeholder f
       = Some (orEmpty (getAttribute (DetectedField.element f) "placeholder"))
    /\ ~ Spec.anonymous (DetectedField.element f).
Proof.
  intros Hd f Hin.
  destruct (detectFields_origin findLabel doc fields f Hd Hin)
    as [e [_ Hc]].
  apply createDetectedField_some in Hc.
  destruct Hc as [_ [Hid [He [Hi [Hn [Hp _]]]]]].
  subst e. rewrite <- Hi, <- Hn in *.
  assert (Hsome : Spec.identified f).
  { unfold Spec.identified.
    apply orb_true_iff in Hid. destruct Hid as [Hid|Hid].
    - apply orb_true_iff in Hid. destruct Hid as [Hid|Hid].
      + left. now apply truthy_true.
      + right. left. now apply truthy_true.
    - right. right. eexists. split; [exact Hp|]. now apply truthy_true. }
  repeat split; try assumption; try reflexivity.
  intros [A1 [A2 A3]]. rewrite <- Hi in A1. rewrite <- Hn in A2.
  destruct Hsome as [H|[H|[p [Hp' H]]]]; try contradiction.
  rewrite Hp in Hp'. injection Hp' as <-. contradiction.
Qed.

(** C10.  No field of the result of [detectFields] has type UNKNOWN: its
    element is an [input], a [select] or a [textarea]; a textarea is
    TEXTAREA, a select is SELECT, and an input has the type its [type]
    attribute names, which is TEXT when the attribute is missing or not
    one of the known values and is never UNKNOWN. *)
Theorem detect_never_unknown fields :
  fst (FieldDetector.detectFields findLabel doc) = Normal fields ->
  forall f, In f fields ->
    let e := DetectedField.element f in
    DetectedField.type f <> FieldType.UNKNOWN
    /\ (localName e = "input" \/ localName e = "select"
        \/ localName e = "textarea")
    /\ (localName e = "textarea" -> DetectedField.type f = FieldType.TEXTAREA)
    /\ (localName e = "select" -> DetectedField.type f = FieldType.SELECT)
    /\ (localName e = "input" ->
        DetectedField.type f
        = FieldDetector.inputFieldType (getAttribute e "type")
        /\ (getAttribute e "type" = None ->
            DetectedField.type f = FieldType.TEXT)
        /\ (forall s, getAttribute e "type" = Some s ->
                      ~ In s Spec.knownInputTypes ->
                      DetectedField.type f = FieldType.TEXT)).
Proof.
  intros Hd f Hin e.
  destruct (detectFields_origin findLabel doc fields f Hd Hin)
    as [e' [Hm Hc]].
  apply createDetectedField_some in Hc.
  destruct Hc as [_ [_ [He [_ [_ [_ [Ht _]]]]]]].
  subst e'. fold e in Ht, Hm. rewrite Ht.
  pose proof (matchesSelector_controls e Hm) as Hk.
  destruct (determineFieldType_control e) as [Ha [Hs Hi]].
  split.
  - destruct Hk as [Hk|[Hk|Hk]].
    + rewrite (Hi Hk). apply inputFieldType_known.
    + rewrite (Hs Hk). discriminate.
    + rewrite (Ha Hk). discriminate.
  - repeat split; auto.
    + intro Hn. rewrite (Hi H), Hn. reflexivity.
    + intros s Hsome Hnot. rewrite (Hi H), Hsome.
      now apply inputFieldType_default.
Qed.

End ScannerProperties.

Section ScannerWitnesses.

Import Dom.

Lemma signupPage_detected :
  fst (FieldDetector.detectFields Examples.ariaLabel Examples.signupPage)
  = Normal [Examples.emailField; Examples.genderField; Examples.termsField].
Proof. reflexivity. Defined.

Lemma detect_excludes_buttons_and_disabled_witness :
  Spec.excluded Examples.submitInput
  /\ DetectedField.element Examples.termsField <> Examples.submitInput.
Proof.
  assert (Hex : Spec.excluded Examples.submitInput)
    by (right; left; reflexivity).
  split; [exact Hex|].
  apply (detect_excludes_buttons_and_disabled
           Examples.ariaLabel Examples.signupPage
           [Examples.emailField; Examples.genderField; Examples.termsField]
           Examples.submitInput signupPage_detected Hex).
  simpl. tauto.
Defined.

Lemma detect_fields_are_identified_witness :
  Spec.identified Examples.termsField
  /\ ~ Spec.anonymous Examples.termsInput.
Proof.
  assert (Hin : In Examples.termsField
                   [Examples.emailField; Examples.genderField;
                    Examples.termsField]) by (simpl; tauto).
  pose proof (detect_fields_are_identified
                Examples.ariaLabel Examples.signupPage _
                signupPage_detected Examples.termsField Hin) as H.
  split; [apply H|]. apply H.
Defined.

Lemma detect_never_unknown_witness :
  DetectedField.type Examples.genderField <> FieldType.UNKNOWN
  /\ DetectedField.type Examples.genderField = FieldType.SELECT.
Proof.
  assert (Hin : In Examples.genderField
                   [Examples.emailField; Examples.genderField;
                    Examples.termsField]) by (simpl; tauto).
  pose proof (detect_never_unknown
                Examples.ariaLabel Examples.signupPage _
                signupPage_detected Examples.genderField Hin) as H.
  split; [apply H|]. apply H. reflexivity.
Defined.

End ScannerWitnesses.

Section FallbackScan.

Import Dom.

Variable findLabel : Document -> Element -> Completion (option string).
Variable doc : Document.

Lemma scan_announced_iff :
  FieldDetector.directScanRan findLabel doc
  <-> Spec.formFields findLabel doc = [].
Proof.
  unfold FieldDetector.directScanRan. rewrite detectFields_unfold. cbv zeta.
  destruct (Spec.formFields findLabel doc) as [|f fs] eqn:Hff; simpl.
  - split; [reflexivity|]. intros _.
    destruct (body doc) as [b|]; simpl.
    + rewrite <- app_assoc. apply in_or_app. right. simpl. now left.
    + apply in_or_app. right. simpl. now left.
  - split; [|discriminate]. intro H. exfalso.
    apply in_app_or in H. destruct H as [H|[H|[]]]; [|discriminate].
    apply formStep_log in H. simpl in H.
    destruct H as [[H|[]]|H]; discriminate.
Qed.

(** C3, as amended.  The direct scan of the whole page runs exactly when
    scanning the form containers yields no detected field.  That is so
    whenever the document has no form container; when the containers yield
    at least one field the result is exactly their fields; and when they
    yield none -- also when forms are present but each element in them is
    skipped -- the result is what the scan of [document.body] finds. *)
Theorem direct_scan_iff_no_form_field :
  (FieldDetector.directScanRan findLabel doc
   <-> Spec.formFields findLabel doc = [])
  /\ (Spec.forms doc = [] -> FieldDetector.directScanRan findLabel doc)
  /\ (Spec.formFields findLabel doc <> [] ->
      fst (FieldDetector.detectFields findLabel doc)
      = Normal (Spec.formFields findLabel doc))
  /\ (Spec.formFields findLabel doc = [] ->
      fst (FieldDetector.detectFields findLabel doc)
      = match body doc with
        | Some b =>
            Normal (fst (FieldDetector.detectFieldsInElement findLabel doc b))
        | None => Throw TypeError
        end).
Proof.
  split; [exact scan_announced_iff|]. split; [|split].
  - intro Hnone. apply scan_announced_iff.
    unfold Spec.formFields. now rewrite Hnone.
  - intro Hsome. rewrite detectFields_unfold. cbv zeta.
    destruct (Spec.formFields findLabel doc); [contradiction|reflexivity].
  - intro Hnone. rewrite detectFields_unfold. cbv zeta. rewrite Hnone. simpl.
    destruct (body doc); reflexivity.
Qed.

End FallbackScan.

(** C3, as stated, fails: on this page a form container is present and
    the one element inside it is excluded, yet the direct scan runs and the
    result is the search box that lies outside the form. *)
Lemma direct_scan_despite_form :
  Spec.forms Examples.hiddenOnlyPage = [Examples.tokenForm]
  /\ Dom.descendants Examples.tokenForm = [Examples.tokenInput]
  /\ Spec.excluded Examples.tokenInput
  /\ FieldDetector.directScanRan Examples.ariaLabel Examples.hiddenOnlyPage
  /\ fst (FieldDetector.detectFields Examples.ariaLabel Examples.hiddenOnlyPage)
     = Normal [Examples.searchField]
  /\ DetectedField.element Examples.searchField = Examples.searchInput
  /\ ~ In Examples.searchInput (Dom.descendants Examples.tokenForm).
Proof.
  repeat split; try reflexivity.
  - left. reflexivity.
  - unfold FieldDetector.directScanRan. simpl. tauto.
  - simpl. intros [H|[]]. discriminate.
Qed.

(* ================================================================== *)
(** ** The resolver *)

Section ListFacts.

Context {A : Type}.

(** [find] returns the first element that passes the test. *)
Lemma find_first (p : A -> bool) (l : list A) (a : A) :
  In a l -> p a = true ->
  exists pre w post,
    l = pre ++ w :: post
    /\ (forall x, In x pre -> p x = false)
    /\ p w = true
    /\ find p l = Some w.
Proof.
  induction l as [|x l IH]; intros Hin Hp; [contradiction|].
  simpl. destruct (p x) eqn:Hx.
  - exists [], x, l. repeat split; auto. intros ? [].
  - destruct Hin as [->|Hin]; [congruence|].
    destruct (IH Hin Hp) as [pre [w [post [-> [Hpre [Hw Hf]]]]]].
    exists (x :: pre), w, post. repeat split; auto.
    intros y [<-|Hy]; auto.
Qed.

End ListFacts.

Section ScoreFacts.

Lemma scoreFieldKeyword_points keywordLower score entry :
  FormFiller.scoreFieldKeyword keywordLower score entry
  = score + Spec.entryPoints keywordLower entry.
Proof.
  unfold FormFiller.scoreFieldKeyword, Spec.entryPoints.
  destruct (includes entry keywordLower); [|lia].
  destruct (entry =? keywordLower); lia.
Qed.

Lemma scoreKeyword_sum bag score keyword :
  FormFiller.scoreKeyword bag score keyword
  = score + list_sum (map (Spec.entryPoints (toLowerCase keyword)) bag).
Proof.
  unfold FormFiller.scoreKeyword. revert score.
  induction bag as [|entry bag IH]; intro score; simpl; [lia|].
  rewrite IH, scoreFieldKeyword_points. lia.
Qed.

Lemma typeKeywordScore_from bag mappingKeywords score :
  fold_left (FormFiller.scoreKeyword bag) mappingKeywords score
  = score
    + list_sum
        (map (fun keyword =>
                list_sum (map (Spec.entryPoints (toLowerCase keyword)) bag))
             mappingKeywords).
Proof.
  revert score.
  induction mappingKeywords as [|k ks IH]; intro score; simpl; [lia|].
  rewrite IH, scoreKeyword_sum. lia.
Qed.

Lemma entryPoints_le_2 keywordLower entry :
  Spec.entryPoints keywordLower entry <= 2.
Proof.
  unfold Spec.entryPoints.
  destruct (includes entry keywordLower); [|lia].
  destruct (entry =? keywordLower); lia.
Qed.

End ScoreFacts.

Section BestFacts.

Variable scoreOf : list string -> nat.

Lemma bestStep_invariant seen best mapping :
  Spec.bestInvariant scoreOf seen best ->
  Spec.bestInvariant scoreOf (seen ++ [mapping])
                     (FormFiller.bestStep scoreOf best mapping).
Proof.
  destruct best as [[w|] s]; unfold Spec.bestInvariant, FormFiller.bestStep; simpl.
  - intros [pre [post [ks [-> [Hk [-> [Hpos [Hpre Hpost]]]]]]]].
    destruct (FieldMapping.keywords mapping) as [mk|] eqn:Hmk; simpl.
    + destruct (Nat.ltb_spec (scoreOf ks) (scoreOf mk)) as [Hlt|Hge]; simpl.
      * exists (pre ++ w :: post), [], mk. repeat split; auto; try lia.
        intros m ks' Hin Hm. apply in_app_or in Hin.
        destruct Hin as [Hin|[<-|Hin]].
        -- specialize (Hpre m ks' Hin Hm). lia.
        -- rewrite Hk in Hm. injection Hm as <-. exact Hlt.
        -- specialize (Hpost m ks' Hin Hm). lia.
        -- intros ? ? [].
      * exists pre, (post ++ [mapping]), ks. rewrite <- app_assoc. simpl.
        repeat split; auto.
        intros m ks' Hin Hm. apply in_app_or in Hin.
        destruct Hin as [Hin|[<-|[]]]; [eauto|].
        rewrite Hmk in Hm. injection Hm as <-. exact Hge.
    + exists pre, (post ++ [mapping]), ks. rewrite <- app_assoc. simpl.
      repeat split; auto.
      intros m ks' Hin Hm. apply in_app_or in Hin.
      destruct Hin as [Hin|[<-|[]]]; [eauto|]. congruence.
  - intros [-> Hzero].
    destruct (FieldMapping.keywords mapping) as [mk|] eqn:Hmk; simpl.
    + destruct (Nat.ltb_spec 0 (scoreOf mk)) as [Hlt|Hge]; simpl.
      * exists seen, [], mk. repeat split; auto.
        -- intros m ks' Hin Hm. rewrite (Hzero m ks' Hin Hm). exact Hlt.
        -- intros ? ? [].
      * split; [reflexivity|]. intros m ks Hin Hm.
        apply in_app_or in Hin. destruct Hin as [Hin|[<-|[]]]; [eauto|].
        rewrite Hmk in Hm. injection Hm as <-. lia.
    + split; [reflexivity|]. intros m ks Hin Hm.
      apply in_app_or in Hin. destruct Hin as [Hin|[<-|[]]]; [eauto|].
      congruence.
Qed.

Lemma bestLoop_invariant candidates :
  Spec.bestInvariant scoreOf candidates
                (fold_left (FormFiller.bestStep scoreOf) candidates (None, 0)).
Proof.
  induction candidates as [|mapping seen IH] using rev_ind.
  - simpl. split; [reflexivity|]. intros ? ? [].
  - rewrite fold_left_app. simpl. now apply bestStep_invariant.
Qed.

End BestFacts.

Lemma sameType_true o ft :
  FormFiller.sameType o ft = true <-> o = Some ft.
Proof.
  unfold FormFiller.sameType, FieldType.eqb. destruct o as [x|].
  - destruct (FieldType.eq_dec x ft) as [->|Hne]; split; try reflexivity;
      try discriminate. intros [= ->]. contradiction.
  - split; discriminate.
Qed.

Section ResolverProperties.

Variable fieldMappings : list FieldMapping.t.
Variable field : DetectedField.t.

Lemma pushLower_app v keywords :
  FormFiller.pushLower v keywords
  = keywords ++ map toLowerCase (map orEmpty (filter truthyOpt [v])).
Proof.
  unfold FormFiller.pushLower. simpl.
  destruct (truthyOpt v); simpl; [reflexivity|now rewrite app_nil_r].
Qed.

(** The bag of priority 3: the non-empty ones among label, placeholder,
    the four attribute values and name, in this order, in lower case. *)
Lemma fieldKeywords_bag :
  FormFiller.fieldKeywords field
  = map toLowerCase
      (map orEmpty
         (filter truthyOpt
            ([DetectedField.label field; DetectedField.placeholder field]
             ++ map (fun attr => recordGet attr (DetectedField.attributes field))
                    FormFiller.usefulAttrs
             ++ [Some (DetectedField.name field)]))).
Proof.
  unfold FormFiller.fieldKeywords, FormFiller.usefulAttrs.
  cbv zeta. simpl fold_left. rewrite !pushLower_app. simpl.
  repeat match goal with
         | |- context [truthyOpt ?x] => destruct (truthyOpt x)
         end; reflexivity.
Qed.

(** C1, as amended.  On the type and keyword tier the candidates are the
    mappings without id and name whose type is the field's; the score of a
    mapping is the sum, over its keywords and over every entry of the bag,
    of one point when the lower-cased keyword occurs in the entry and one
    more when it equals the entry, so a keyword earns up to two points for
    each entry that contains it.  The winner is the first candidate of the
    highest score, its score is positive, and a candidate that scores zero
    never wins; when no id or name mapping matched, the winner of this tier
    is the resolver's answer. *)
Theorem type_keyword_tier :
  let bag := FormFiller.fieldKeywords field in
  let score := FormFiller.typeKeywordScore bag in
  (forall mappingKeywords,
      score mappingKeywords
      = list_sum
          (map (fun keyword =>
                  list_sum (map (Spec.entryPoints (toLowerCase keyword)) bag))
               mappingKeywords)
      /\ score mappingKeywords <= 2 * length bag * length mappingKeywords)
  /\ (forall m,
         FormFiller.typeKeywordMatch fieldMappings field = Some m ->
         exists pre post ks,
           FormFiller.typeMatches fieldMappings field = pre ++ m :: post
           /\ FieldMapping.keywords m = Some ks
           /\ 0 < score ks
           /\ (forall m' ks', In m' pre ->
                              FieldMapping.keywords m' = Some ks' ->
                              score ks' < score ks)
           /\ (forall m' ks', In m' post ->
                              FieldMapping.keywords m' = Some ks' ->
                              score ks' <= score ks))
  /\ (FormFiller.typeKeywordMatch fieldMappings field = None ->
      forall m ks, In m (FormFiller.typeMatches fieldMappings field) ->
                   FieldMapping.keywords m = Some ks -> score ks = 0)
  /\ (forall m,
         FormFiller.idMatch fieldMappings field = None ->
         FormFiller.nameMatch fieldMappings field = None ->
         FormFiller.typeKeywordMatch fieldMappings field = Some m ->
         FormFiller.findBestMapping fieldMappings field = Some m)
  /\ (forall m,
         In m (FormFiller.typeMatches fieldMappings field) <->
         In m fieldMappings
         /\ truthyOpt (FieldMapping.id m) = false
         /\ truthyOpt (FieldMapping.name m) = false
         /\ FieldMapping.type m = Some (DetectedField.type field))
  /\ bag
     = map toLowerCase
         (map orEmpty
            (filter truthyOpt
               ([DetectedField.label field; DetectedField.placeholder field]
                ++ map (fun attr =>
                          recordGet attr (DetectedField.attributes field))
                       ["title"; "alt"; "aria-label"; "data-label"]
                ++ [Some (DetectedField.name field)]))).
Proof.
  intros bag score. split; [|split; [|split; [|split; [|split]]]].
  - intro ks. unfold score, FormFiller.typeKeywordScore.
    rewrite typeKeywordScore_from. simpl. split; [reflexivity|].
    induction ks as [|k ks IH]; simpl; [lia|].
    assert (Hk : list_sum (map (Spec.entryPoints (toLowerCase k)) bag)
                 <= 2 * length bag).
    { clear. induction bag as [|e b IHb]; simpl; [lia|].
      pose proof (entryPoints_le_2 (toLowerCase k) e). lia. }
    lia.
  - intros m Hm. unfold FormFiller.typeKeywordMatch in Hm.
    destruct (0 <? length (FormFiller.typeMatches fieldMappings field))%nat;
      [|discriminate].
    unfold FormFiller.bestOf in Hm.
    pose proof (bestLoop_invariant score
                  (FormFiller.typeMatches fieldMappings field)) as Hinv.
    unfold Spec.bestInvariant in Hinv. fold bag in Hm. fold score in Hm.
    rewrite Hm in Hinv.
    destruct Hinv as [pre [post [ks [Hsplit [Hk [_ [Hpos [Hpre Hpost]]]]]]]].
    exists pre, post, ks. auto.
  - intros Hnone m ks Hin Hk. unfold FormFiller.typeKeywordMatch in Hnone.
    destruct (FormFiller.typeMatches fieldMappings field) as [|c cs] eqn:Htm;
      [contradiction|].
    change (0 <? length (c :: cs))%nat with true in Hnone.
    unfold FormFiller.bestOf in Hnone.
    pose proof (bestLoop_invariant score (c :: cs)) as Hinv.
    unfold Spec.bestInvariant in Hinv. fold bag in Hnone. fold score in Hnone.
    rewrite Hnone in Hinv. destruct Hinv as [_ Hzero]. eauto.
  - intros m Hid Hname Hm. unfold FormFiller.findBestMapping.
    now rewrite Hid, Hname, Hm.
  - intro m. unfold FormFiller.typeMatches. rewrite filter_In.
    rewrite !andb_true_iff, !negb_true_iff, sameType_true. tauto.
  - exact fieldKeywords_bag.
Qed.

(** C2.  When the field has a non-empty id and the table holds a mapping
    [A] with that id, the resolver returns the first mapping of the table
    with that id, wherever the other mappings stand: a mapping that lacks
    the id, such as one that matches by keywords only, is never returned,
    and [A] itself is returned when it is the only mapping with the id. *)
Theorem id_match_beats_keywords (A : FieldMapping.t) :
  DetectedField.id field <> "" ->
  In A fieldMappings ->
  FieldMapping.id A = Some (DetectedField.id field) ->
  exists pre W post,
    fieldMappings = pre ++ W :: post
    /\ (forall m, In m pre ->
                  FieldMapping.id m <> Some (DetectedField.id field))
    /\ FieldMapping.id W = Some (DetectedField.id field)
    /\ FormFiller.findBestMapping fieldMappings field = Some W
    /\ (forall B, FieldMapping.id B <> Some (DetectedField.id field) ->
                  FormFiller.findBestMapping fieldMappings field <> Some B)
    /\ ((forall m, In m fieldMappings ->
                   FieldMapping.id m = Some (DetectedField.id field) ->
                   m = A) ->
        FormFiller.findBestMapping fieldMappings field = Some A).
Proof.
  intros Hid Hin HA.
  assert (Hsame : forall m,
             FormFiller.sameString (FieldMapping.id m) (DetectedField.id field)
             = true
             <-> FieldMapping.id m = Some (DetectedField.id field)).
  { intro m. unfold FormFiller.sameString.
    destruct (FieldMapping.id m) as [x|]; [|split; discriminate].
    rewrite String.eqb_eq. split; congruence. }
  destruct (find_first
              (fun m => FormFiller.sameString (FieldMapping.id m)
                                              (DetectedField.id field))
              fieldMappings A Hin (proj2 (Hsame A) HA))
    as [pre [W [post [Hsplit [Hpre [HW Hfind]]]]]].
  assert (Hbest : FormFiller.findBestMapping fieldMappings field = Some W).
  { unfold FormFiller.findBestMapping, FormFiller.idMatch.
    rewrite (proj2 (truthy_true _) Hid), Hfind. reflexivity. }
  apply Hsame in HW.
  exists pre, W, post. repeat split; auto.
  - intros m Hm Heq. apply Hsame in Heq. rewrite (Hpre m Hm) in Heq.
    discriminate.
  - intros B HB Heq. rewrite Hbest in Heq. congruence.
  - intro Honly. rewrite Hbest. f_equal. apply Honly; [|exact HW].
    rewrite Hsplit. apply in_or_app. right. now left.
Qed.

End ResolverProperties.

(** C1, as stated, fails: here the keyword "email" equals three entries of
    the bag (label, aria-label and name) and earns six points, where the
    claim allows a keyword two points at most. *)
Lemma keyword_scores_once_per_entry :
  FormFiller.fieldKeywords Examples.emailField = ["email"; "email"; "email"]
  /\ FormFiller.typeMatches [Examples.emailByType] Examples.emailField
     = [Examples.emailByType]
  /\ FormFiller.typeKeywordScore
       (FormFiller.fieldKeywords Examples.emailField) ["email"; "e-mail"] = 6
  /\ Spec.statedScore
       (FormFiller.fieldKeywords Examples.emailField) ["email"; "e-mail"] = 2
  /\ FormFiller.typeKeywordScore
       (FormFiller.fieldKeywords Examples.emailField) ["email"; "e-mail"]
     <> Spec.statedScore
          (FormFiller.fieldKeywords Examples.emailField) ["email"; "e-mail"].
Proof. repeat split; try reflexivity. discriminate. Qed.

Lemma id_match_beats_keywords_witness :
  FormFiller.findBestMapping [Examples.emailByType] Examples.emailField
  = Some Examples.emailByType
  /\ FormFiller.findBestMapping [Examples.emailByType; Examples.emailById]
                                Examples.emailField
     = Some Examples.emailById
  /\ FormFiller.findBestMapping [Examples.emailById; Examples.emailByType]
                                Examples.emailField
     = Some Examples.emailById.
Proof.
  split; [reflexivity|]. split.
  - destruct (id_match_beats_keywords
                [Examples.emailByType; Examples.emailById]
                Examples.emailField Examples.emailById)
      as [pre [W [post [_ [_ [_ [_ [_ Honly]]]]]]]].
    + discriminate.
    + simpl. tauto.
    + reflexivity.
    + apply Honly. intros m [<-|[<-|[]]]; [discriminate|reflexivity].
  - destruct (id_match_beats_keywords
                [Examples.emailById; Examples.emailByType]
                Examples.emailField Examples.emailById)
      as [pre [W [post [_ [_ [_ [_ [_ Honly]]]]]]]].
    + discriminate.
    + simpl. tauto.
    + reflexivity.
    + apply Honly. intros m [<-|[<-|[]]]; [reflexivity|discriminate].
Defined.

(* ================================================================== *)
(** ** The filler *)

Section SelectFacts.

Import Dom.

Lemma possibleValuesOf_strings value cs :
  Spec.candidates value = Some cs ->
  FormFiller.possibleValuesOf value = map VString cs.
Proof.
  destruct value as [s|b|xs]; simpl; intros [= <-]; reflexivity.
Qed.

Lemma anyValue_strings test cs :
  FormFiller.anyValue test (map VString cs)
  = Normal (existsb (fun c => test (toLowerCase c)) cs).
Proof.
  induction cs as [|c cs IH]; simpl; [reflexivity|].
  destruct (test (toLowerCase c)); simpl; [reflexivity|exact IH].
Qed.

Lemma findOption_strings test options i cs :
  FormFiller.findOption test options i (map VString cs)
  = Normal (Spec.firstIndexFrom
              (fun option => existsb (fun c => test option (toLowerCase c)) cs)
              options i).
Proof.
  revert i. induction options as [|o options IH]; intro i; simpl;
    [reflexivity|].
  rewrite anyValue_strings.
  destruct (existsb (fun c => test o (toLowerCase c)) cs);
    [reflexivity|apply IH].
Qed.

Lemma firstIndexFrom_nil_iff hit options i :
  Spec.firstIndexFrom hit options i = None
  <-> forall option, In option options -> hit option = false.
Proof.
  revert i. induction options as [|o options IH]; intro i; simpl.
  - split; [intros _ ? []|reflexivity].
  - destruct (hit o) eqn:Ho.
    + split; [discriminate|]. intro H. rewrite (H o) in Ho; [discriminate|].
      now left.
    + rewrite IH. split.
      * intros H x [<-|Hx]; auto.
      * intros H x Hx. apply H. now right.
Qed.

(** What [fillSelectField] does to a select that is not disabled, for a
    mapping value made of strings. *)
Lemma fillSelectField_strings select value cs w :
  disabled select = false ->
  Spec.candidates value = Some cs ->
  FormFiller.fillSelectField select value w
  = let p := props w (handle select) in
    match Spec.passesFind cs (Props.options p) with
    | Some i => (Normal true, Spec.selected select i w)
    | None =>
        if FormFiller.fallbackGuard false p
        then (Normal true,
              Spec.selected select (Spec.fallbackIndex (Props.options p)) w)
        else (Normal false, w)
    end.
Proof.
  intros Hdis Hcs. unfold FormFiller.fillSelectField. rewrite Hdis.
  rewrite (possibleValuesOf_strings value cs Hcs).
  unfold bind, getProps, liftCompletion. rewrite !findOption_strings.
  cbv zeta. unfold Spec.passesFind.
  change (fun option =>
            existsb (fun c => FormFiller.exactTest option (toLowerCase c)) cs)
    with (Spec.exactHit cs).
  change (fun option =>
            existsb (fun c => FormFiller.substringTest option (toLowerCase c))
                    cs)
    with (Spec.substringHit cs).
  destruct (Spec.firstIndexFrom (Spec.exactHit cs)
              (Props.options (props w (handle select))) 0) as [i|] eqn:He.
  - reflexivity.
  - simpl.
    destruct (Props.options (props w (handle select))) as [|o os] eqn:Hopts.
    + simpl. unfold FormFiller.fallbackGuard. rewrite Hopts. simpl.
      rewrite andb_false_r. reflexivity.
    + change (0 <? length (o :: os))%nat with true. cbv iota.
      destruct (Spec.firstIndexFrom (Spec.substringHit cs) (o :: os) 0)
        as [j|] eqn:Hs.
      * reflexivity.
      * simpl. unfold FormFiller.fallbackGuard. rewrite Hopts.
        destruct (Props.selectedIndex (props w (handle select)) <=? 0)%Z;
          destruct os as [|o2 os']; simpl; try reflexivity.
        destruct (FormFiller.isPlaceholder o); reflexivity.
Qed.

End SelectFacts.

Section SelectProperties.

Import Dom.

Variable select : Element.
Variable w : World.

Hypothesis enabled : disabled select = false.

(** The gender options in every state of the select: on a select that is
    not disabled, with the options "", "Select...", "male", "female" and
    the mapping value "man", neither pass finds an option; when the
    selected index is at most 0 the operation selects index 1, the option
    "Select...", dispatches [change] and returns true; when a later option
    is already selected it changes nothing and returns false. *)
Theorem select_fallback_on_gender_options :
  Props.options (props w (handle select)) = Examples.genderOptions ->
  Spec.passesFind ["man"] Examples.genderOptions = None
  /\ nth_error Examples.genderOptions 1
     = Some (HTMLOption.mk "Select..." "Select...")
  /\ ((Props.selectedIndex (props w (handle select)) <= 0)%Z ->
      FormFiller.fillSelectField select (VString "man") w
      = (Normal true, Spec.selected select 1 w))
  /\ ((0 < Props.selectedIndex (props w (handle select)))%Z ->
      FormFiller.fillSelectField select (VString "man") w = (Normal false, w)).
Proof.
  intro Hopts.
  assert (Hfind : Spec.passesFind ["man"] Examples.genderOptions = None)
    by reflexivity.
  split; [exact Hfind|]. split; [reflexivity|].
  pose proof (fillSelectField_strings select (VString "man") ["man"] w
                enabled eq_refl) as Hfill.
  cbv zeta in Hfill. rewrite Hopts, Hfind in Hfill.
  unfold FormFiller.fallbackGuard in Hfill. rewrite Hopts in Hfill.
  simpl in Hfill.
  split; intro Hidx; rewrite Hfill.
  - apply Z.leb_le in Hidx. rewrite Hidx. reflexivity.
  - apply Z.leb_gt in Hidx. rewrite Hidx. reflexivity.
Qed.

Variable value : MappingValue.
Variable cs : list string.

Hypothesis strings : Spec.candidates value = Some cs.

(** C5, as amended.  On a select that is not disabled the placeholder-skip
    fallback decides the outcome exactly when the exact pass and the
    substring pass found no option, the selected index is at most 0 (no
    option, or the first one, is selected) and there is more than one
    option.  It then selects the second option if the first has an empty
    value or a text that, in lower case, contains "select" or "choose",
    and the first option otherwise, dispatches [change] and returns true.
    When a pass found an option that option is selected; when nothing was
    found and the guard fails the select is left as it was and the
    operation returns false. *)
Theorem placeholder_fallback_guard :
  let p := props w (handle select) in
  let options := Props.options p in
  (forall i, Spec.passesFind cs options = Some i ->
             FormFiller.fillSelectField select value w
             = (Normal true, Spec.selected select i w))
  /\ (Spec.passesFind cs options = None ->
      (Props.selectedIndex p <= 0)%Z ->
      1 < length options ->
      FormFiller.fillSelectField select value w
      = (Normal true, Spec.selected select (Spec.fallbackIndex options) w))
  /\ (Spec.passesFind cs options = None ->
      ~ ((Props.selectedIndex p <= 0)%Z /\ 1 < length options) ->
      FormFiller.fillSelectField select value w = (Normal false, w))
  /\ (Spec.passesFind cs options = None <->
      forall option, In option options ->
                     Spec.exactHit cs option = false
                     /\ Spec.substringHit cs option = false)
  /\ (forall firstOption rest,
         options = firstOption :: rest ->
         Spec.fallbackIndex options
         = (if FormFiller.isPlaceholder firstOption then 1 else 0)%Z)
  /\ (forall firstOption,
         FormFiller.isPlaceholder firstOption = true <->
         HTMLOption.value firstOption = ""
         \/ includes (toLowerCase (HTMLOption.text firstOption)) "select"
            = true
         \/ includes (toLowerCase (HTMLOption.text firstOption)) "choose"
            = true).
Proof.
  intros p options.
  pose proof (fillSelectField_strings select value cs w enabled strings)
    as Hfill.
  cbv zeta in Hfill. fold p in Hfill. fold options in Hfill.
  repeat split.
  - intros i Hi. rewrite Hfill, Hi. reflexivity.
  - intros Hnone Hidx Hlen. rewrite Hfill, Hnone.
    unfold FormFiller.fallbackGuard. fold options.
    apply Z.leb_le in Hidx. apply Nat.ltb_lt in Hlen.
    rewrite Hidx, Hlen. reflexivity.
  - intros Hnone Hguard. rewrite Hfill, Hnone.
    unfold FormFiller.fallbackGuard. fold options.
    destruct (Z.leb_spec (Props.selectedIndex p) 0) as [Hidx|Hidx];
      [|reflexivity].
    destruct (Nat.ltb_spec 1 (length options)) as [Hlen|Hlen];
      [|reflexivity].
    exfalso. apply Hguard. split; assumption.
  - unfold Spec.passesFind in H.
    destruct (Spec.firstIndexFrom (Spec.exactHit cs) options 0) eqn:He;
      [discriminate|].
    exact (proj1 (firstIndexFrom_nil_iff _ _ _) He option H0).
  - unfold Spec.passesFind in H.
    destruct (Spec.firstIndexFrom (Spec.exactHit cs) options 0) eqn:He;
      [discriminate|].
    exact (proj1 (firstIndexFrom_nil_iff _ _ _) H option H0).
  - intro Hall. unfold Spec.passesFind.
    assert (He : Spec.firstIndexFrom (Spec.exactHit cs) options 0 = None).
    { apply firstIndexFrom_nil_iff. intros o Ho. apply Hall, Ho. }
    rewrite He. apply firstIndexFrom_nil_iff. intros o Ho. apply Hall, Ho.
  - intros firstOption rest ->. reflexivity.
  - unfold FormFiller.isPlaceholder.
    rewrite !orb_true_iff, String.eqb_eq. tauto.
  - unfold FormFiller.isPlaceholder.
    rewrite !orb_true_iff, String.eqb_eq. tauto.
Qed.

End SelectProperties.

(** C4.  The code misses the claim.  With the options "", "Select...",
    "male", "female", the first one selected as on a fresh drop-down, and
    the mapping value "man", the operation returns true but selects index
    1, the option "Select...", which its own placeholder test takes for a
    placeholder, and not "male" at index 2, the first option that is not
    a placeholder. *)
Lemma select_fallback_picks_index_1 :
  let after :=
    FormFiller.fillSelectField Examples.genderSelect (VString "man")
                               (Examples.page 0 false) in
  Dom.disabled Examples.genderSelect = false
  /\ fst after = Normal true
  /\ Props.selectedIndex
       (props (snd after) (Dom.handle Examples.genderSelect)) = 1%Z
  /\ Props.selectedIndex
       (props (snd after) (Dom.handle Examples.genderSelect)) <> 2%Z
  /\ nth_error Examples.genderOptions 1
     = Some (HTMLOption.mk "Select..." "Select...")
  /\ nth_error Examples.genderOptions 2 = Some (HTMLOption.mk "male" "male")
  /\ FormFiller.isPlaceholder (HTMLOption.mk "Select..." "Select...") = true
  /\ FormFiller.isPlaceholder (HTMLOption.mk "male" "male") = false.
Proof. repeat split; try reflexivity. discriminate. Qed.

(** C5, as stated, fails: here an option is selected (the first one, index
    0), neither pass finds an option, and the fallback still runs: the
    operation moves the selection to index 1 and returns true. *)
Lemma fallback_runs_with_first_option_selected :
  let before := Examples.page 0 false in
  let after :=
    FormFiller.fillSelectField Examples.genderSelect (VString "man") before in
  Props.selectedIndex (props before (Dom.handle Examples.genderSelect)) = 0%Z
  /\ nth_error Examples.genderOptions 0 = Some (HTMLOption.mk "" "")
  /\ Spec.passesFind ["man"] Examples.genderOptions = None
  /\ FormFiller.fallbackGuard
       false (props before (Dom.handle Examples.genderSelect)) = true
  /\ after = (Normal true, Spec.selected Examples.genderSelect 1 before).
Proof. repeat split. Qed.

Lemma select_fallback_on_gender_options_witness :
  FormFiller.fillSelectField Examples.genderSelect (VString "man")
                             (Examples.page 0 false)
  = (Normal true, Spec.selected Examples.genderSelect 1 (Examples.page 0 false))
  /\ FormFiller.fillSelectField Examples.genderSelect (VString "man")
                                (Examples.page 3 false)
     = (Normal false, Examples.page 3 false).
Proof.
  split.
  - apply (select_fallback_on_gender_options
             Examples.genderSelect (Examples.page 0 false) eq_refl eq_refl).
    simpl. lia.
  - apply (select_fallback_on_gender_options
             Examples.genderSelect (Examples.page 3 false) eq_refl eq_refl).
    simpl. lia.
Defined.

Lemma placeholder_fallback_guard_witness :
  FormFiller.fillSelectField Examples.genderSelect (VArray ["Male"; "Other"])
                             (Examples.page 0 false)
  = (Normal true, Spec.selected Examples.genderSelect 2 (Examples.page 0 false))
  /\ FormFiller.fillSelectField Examples.genderSelect (VString "man")
                                (Examples.page (-1) false)
     = (Normal true,
        Spec.selected Examples.genderSelect 1 (Examples.page (-1) false)).
Proof.
  split.
  - apply (placeholder_fallback_guard
             Examples.genderSelect (Examples.page 0 false) eq_refl
             (VArray ["Male"; "Other"]) ["Male"; "Other"] eq_refl).
    reflexivity.
  - apply (placeholder_fallback_guard
             Examples.genderSelect (Examples.page (-1) false) eq_refl
             (VString "man") ["man"] eq_refl).
    + reflexivity.
    + simpl. lia.
    + simpl. lia.
Defined.

Section ToggleProperties.

Import Dom.

Variable input : Element.
Variable w : World.

Hypothesis enabled : disabled input = false.

(** C7.  On a checkbox or radio that is not disabled, when the checked
    state already equals the mapping's boolean the toggle fill dispatches
    nothing, leaves the page as it is and returns true; when it differs
    the operation sets it, dispatches [click] and then [change], and
    returns true.  Through [fillField] a CHECKBOX or RADIO field whose
    mapping carries that boolean counts as filled in the same way. *)
Theorem toggle_idempotent (b : bool) :
  (Props.checked (props w (handle input)) = b ->
   FormFiller.fillToggleField input (VBoolean b) w = (Normal true, w))
  /\ (Props.checked (props w (handle input)) <> b ->
      FormFiller.fillToggleField input (VBoolean b) w
      = (Normal true, Spec.toggled input b w)
      /\ Props.checked (props (Spec.toggled input b w) (handle input)) = b
      /\ dispatched (Spec.toggled input b w)
         = dispatched w ++ [(handle input, "click"); (handle input, "change")])
  /\ (forall fieldMappings field mapping,
         DetectedField.element field = input ->
         DetectedField.type field = FieldType.CHECKBOX
         \/ DetectedField.type field = FieldType.RADIO ->
         FormFiller.findBestMapping fieldMappings field = Some mapping ->
         FieldMapping.value mapping = VBoolean b ->
         FormFiller.fillField fieldMappings field w
         = FormFiller.fillToggleField input (VBoolean b) w).
Proof.
  split; [|split].
  - intro Hsame. unfold FormFiller.fillToggleField. rewrite enabled.
    unfold bind, getProps. simpl. rewrite Hsame.
    destruct b; reflexivity.
  - intro Hdiff. unfold FormFiller.fillToggleField. rewrite enabled.
    unfold bind, getProps. simpl.
    assert (Hneg : negb (Bool.eqb (Props.checked (props w (handle input))) b)
                   = true).
    { destruct (Props.checked (props w (handle input))), b; simpl;
        congruence. }
    rewrite Hneg. simpl. split; [reflexivity|]. split.
    + rewrite Nat.eqb_refl. reflexivity.
    + now rewrite <- app_assoc.
  - intros fieldMappings field mapping He Ht Hm Hv.
    unfold FormFiller.fillField, FormFiller.fillFieldBody, tryCatch.
    rewrite Hm, Hv, He.
    assert (Hnormal : exists w', FormFiller.fillToggleField input (VBoolean b) w
                                 = (Normal true, w')).
    { unfold FormFiller.fillToggleField. rewrite enabled.
      unfold bind, getProps. simpl.
      destruct (negb (Bool.eqb (Props.checked (props w (handle input))) b));
        simpl; eexists; reflexivity. }
    destruct Hnormal as [w' Hw'].
    destruct Ht as [-> | ->]; rewrite Hw'; reflexivity.
Qed.

End ToggleProperties.

Lemma toggle_idempotent_witness :
  FormFiller.fillToggleField Examples.termsInput (VBoolean true)
                             (Examples.page 0 true)
  = (Normal true, Examples.page 0 true)
  /\ dispatched
       (snd (FormFiller.fillToggleField Examples.termsInput (VBoolean true)
                                        (Examples.page 0 false)))
     = [(5, "click"); (5, "change")].
Proof.
  split.
  - apply (toggle_idempotent Examples.termsInput (Examples.page 0 true)
                             eq_refl true).
    reflexivity.
  - destruct (toggle_idempotent Examples.termsInput (Examples.page 0 false)
                                eq_refl true) as [_ [Hdiff _]].
    destruct Hdiff as [Hfill [_ Hevents]]; [discriminate|].
    rewrite Hfill. exact Hevents.
Defined.

Section FillProperties.

Variable fieldMappings : list FieldMapping.t.

(** [fillField] returns normally whatever its [try] block does. *)
Lemma fillField_normal field w :
  exists filled w',
    FormFiller.fillField fieldMappings field w = (Normal filled, w').
Proof.
  unfold FormFiller.fillField, tryCatch.
  destruct (FormFiller.fillFieldBody fieldMappings field w) as [[filled|e] w1].
  - now exists filled, w1.
  - eexists false, _. reflexivity.
Qed.

Lemma filledCount_le results : Spec.filledCount results <= length results.
Proof. unfold Spec.filledCount. apply filter_length_le. Qed.

Lemma outcomes_length fields w :
  length (Spec.outcomes fieldMappings fields w) = length fields.
Proof.
  revert w. induction fields as [|field rest IH]; intro w; simpl;
    [reflexivity|].
  destruct (FormFiller.fillField fieldMappings field w) as [[filled|e] w1];
    simpl; now rewrite IH.
Qed.

(** The counting loop from any value of its counter. *)
Lemma fillLoop_counts fields n w :
  forEachAcc fields (FormFiller.countStep fieldMappings) n w
  = (Normal (n + Spec.filledCount (Spec.outcomes fieldMappings fields w)),
     Spec.afterFill fieldMappings fields w).
Proof.
  revert n w. induction fields as [|field rest IH]; intros n w; simpl.
  - unfold ret, Spec.filledCount. simpl. now rewrite Nat.add_0_r.
  - unfold bind, FormFiller.countStep at 1. unfold bind.
    destruct (fillField_normal field w) as [filled [w1 Hf]].
    rewrite Hf. simpl. rewrite IH. unfold Spec.filledCount. simpl.
    destruct filled; simpl; f_equal; f_equal; lia.
Qed.

(** The fill loop by itself never throws: for every list of detected
    fields, mapping table and page it returns the number of fields whose fill
    returned true, each field filled in the state the previous ones left,
    and that number is at most the number of fields.  [fillField] always
    returns normally; when its [try] block throws, the error is logged, the
    field counts as unfilled and the loop goes on with the next field.
    [fillForms] returns that count whenever detection returned the field
    list. *)
Theorem fill_never_throws (fields : list DetectedField.t) (w : World) :
  FormFiller.fillFields fieldMappings fields w
  = (Normal (Spec.filledCount (Spec.outcomes fieldMappings fields w)),
     Spec.afterFill fieldMappings fields w)
  /\ Spec.filledCount (Spec.outcomes fieldMappings fields w) <= length fields
  /\ length (Spec.outcomes fieldMappings fields w) = length fields
  /\ (forall field w0,
         exists filled w1,
           FormFiller.fillField fieldMappings field w0 = (Normal filled, w1))
  /\ (forall field e w0 w1,
         FormFiller.fillFieldBody fieldMappings field w0 = (Throw e, w1) ->
         FormFiller.fillField fieldMappings field w0
         = (Normal false,
            mkWorld (props w1) (dispatched w1)
                    (logged w1
                     ++ [mkLog ERROR
                           ("Error filling field: "
                            ++ orElse (DetectedField.id field)
                                      (DetectedField.name field))%string]))
         /\ forall rest,
             FormFiller.fillFields fieldMappings (field :: rest) w0
             = FormFiller.fillFields
                 fieldMappings rest
                 (snd (FormFiller.fillField fieldMappings field w0)))
  /\ (forall findLabel doc detected,
         fst (FieldDetector.detectFields findLabel doc) = Normal detected ->
         exists w1 w2,
           FormFiller.detectFields findLabel doc w = (Normal detected, w1)
           /\ FormFiller.fillForms fieldMappings findLabel doc w
              = (Normal
                   (Spec.filledCount (Spec.outcomes fieldMappings detected w1)),
                 w2)).
Proof.
  split; [|split; [|split; [|split; [|split]]]].
  - unfold FormFiller.fillFields. now rewrite fillLoop_counts.
  - rewrite <- (outcomes_length fields w). apply filledCount_le.
  - apply outcomes_length.
  - intros field w0. apply fillField_normal.
  - intros field e w0 w1 Hthrow.
    assert (Hcaught :
              FormFiller.fillField fieldMappings field w0
              = (Normal false,
                 mkWorld (props w1) (dispatched w1)
                         (logged w1
                          ++ [mkLog ERROR
                                ("Error filling field: "
                                 ++ orElse (DetectedField.id field)
                                           (DetectedField.name field))%string]))).
    { unfold FormFiller.fillField, tryCatch. rewrite Hthrow. reflexivity. }
    split; [exact Hcaught|]. intro rest.
    unfold FormFiller.fillFields. rewrite !fillLoop_counts. simpl.
    rewrite Hcaught. reflexivity.
  - intros findLabel doc detected Hdet.
    unfold FormFiller.fillForms, FormFiller.detectFields, bind.
    rewrite Hdet. unfold FormFiller.fillFields. rewrite fillLoop_counts.
    simpl. eexists _, _. split; reflexivity.
Qed.

End FillProperties.

(** A select mapping that carries a boolean makes [fillSelectField] throw;
    the loop counts the select as unfilled and still fills the checkbox
    that follows. *)
Lemma fill_never_throws_witness :
  fst (FormFiller.fillFieldBody
         [Examples.genderBoolean; Examples.termsByType] Examples.genderField
         (Examples.page 0 false))
  = Throw TypeError
  /\ Spec.outcomes [Examples.genderBoolean; Examples.termsByType]
                   [Examples.genderField; Examples.termsField]
                   (Examples.page 0 false)
     = [false; true]
  /\ fst (FormFiller.fillFields
            [Examples.genderBoolean; Examples.termsByType]
            [Examples.genderField; Examples.termsField]
            (Examples.page 0 false))
     = Normal 1.
Proof.
  split; [reflexivity|]. split; [reflexivity|].
  destruct (fill_never_throws
              [Examples.genderBoolean; Examples.termsByType]
              [Examples.genderField; Examples.termsField]
              (Examples.page 0 false)) as [Hcount _].
  rewrite Hcount. reflexivity.
Defined.

Lemma type_keyword_tier_witness :
  FormFiller.typeKeywordMatch [Examples.emailByType] Examples.emailField
  = Some Examples.emailByType
  /\ FormFiller.findBestMapping [Examples.emailByType] Examples.emailField
     = Some Examples.emailByType.
Proof.
  split; [reflexivity|].
  apply (type_keyword_tier [Examples.emailByType] Examples.emailField);
    reflexivity.
Defined.

(* ================================================================== *)
(** ** Further properties of the resolver *)

Section ResolverTiers.

Variable fieldMappings : list FieldMapping.t.
Variable field : DetectedField.t.

Lemma bestOf_member scoreOf candidates m :
  FormFiller.bestOf scoreOf candidates = Some m -> In m candidates.
Proof.
  unfold FormFiller.bestOf. intro Hm.
  pose proof (bestLoop_invariant scoreOf candidates) as Hinv.
  unfold Spec.bestInvariant in Hinv. rewrite Hm in Hinv.
  destruct Hinv as [pre [post [ks [-> _]]]].
  apply in_or_app. right. now left.
Qed.

Lemma find_all_false {A} (p : A -> bool) (l : list A) :
  (forall x, In x l -> p x = false) -> find p l = None.
Proof.
  induction l as [|x l IH]; intro H; simpl; [reflexivity|].
  rewrite (H x (or_introl eq_refl)). apply IH. intros y Hy. apply H. now right.
Qed.

(** The resolver answers from the table: a mapping it returns is one of the
    configured mappings, and with an empty table it returns none. *)
Theorem resolver_answers_from_table :
  (forall m, FormFiller.findBestMapping fieldMappings field = Some m ->
             In m fieldMappings)
  /\ (fieldMappings = [] ->
      FormFiller.findBestMapping fieldMappings field = None).
Proof.
  assert (Hmember : forall m,
             FormFiller.findBestMapping fieldMappings field = Some m ->
             In m fieldMappings).
  { intros m. unfold FormFiller.findBestMapping.
    destruct (FormFiller.idMatch fieldMappings field) as [a|] eqn:Hid.
    { intros [= <-]. unfold FormFiller.idMatch in Hid.
      destruct (truthy (DetectedField.id field)); [|discriminate].
      now apply find_some in Hid. }
    destruct (FormFiller.nameMatch fieldMappings field) as [a|] eqn:Hname.
    { intros [= <-]. unfold FormFiller.nameMatch in Hname.
      destruct (truthy (DetectedField.name field)); [|discriminate].
      now apply find_some in Hname. }
    destruct (FormFiller.typeKeywordMatch fieldMappings field) as [a|] eqn:Ht.
    { intros [= <-]. unfold FormFiller.typeKeywordMatch in Ht.
      destruct (0 <? length (FormFiller.typeMatches fieldMappings field))%nat;
        [|discriminate].
      apply bestOf_member in Ht. unfold FormFiller.typeMatches in Ht.
      now apply filter_In in Ht. }
    destruct (FormFiller.keywordMatch fieldMappings field) as [a|] eqn:Hk.
    { intros [= <-]. unfold FormFiller.keywordMatch in Hk.
      match type of Hk with
      | (if ?c then _ else _) = _ => destruct c; [|discriminate]
      end.
      apply bestOf_member in Hk. unfold FormFiller.keywordMatches in Hk.
      now apply filter_In in Hk. }
    unfold FormFiller.typeFallback. intro Hf. now apply find_some in Hf. }
  split; [exact Hmember|].
  intro Hempty.
  destruct (FormFiller.findBestMapping fieldMappings field) as [m|] eqn:Hm;
    [|reflexivity].
  pose proof (Hmember m eq_refl) as Hin. rewrite Hempty in Hin.
  contradiction.
Qed.

(** Identity by name: when no mapping matched by id, the field has a
    non-empty name and the table holds a mapping with that name, the
    resolver returns the first mapping of the table with that name, ahead
    of every keyword and type mapping. *)
Theorem name_match_is_second (A : FieldMapping.t) :
  FormFiller.idMatch fieldMappings field = None ->
  DetectedField.name field <> "" ->
  In A fieldMappings ->
  FieldMapping.name A = Some (DetectedField.name field) ->
  exists pre W post,
    fieldMappings = pre ++ W :: post
    /\ (forall m, In m pre ->
                  FieldMapping.name m <> Some (DetectedField.name field))
    /\ FieldMapping.name W = Some (DetectedField.name field)
    /\ FormFiller.findBestMapping fieldMappings field = Some W.
Proof.
  intros Hid Hname Hin HA.
  assert (Hsame : forall m,
             FormFiller.sameString (FieldMapping.name m)
                                   (DetectedField.name field) = true
             <-> FieldMapping.name m = Some (DetectedField.name field)).
  { intro m. unfold FormFiller.sameString.
    destruct (FieldMapping.name m) as [x|]; [|split; discriminate].
    rewrite String.eqb_eq. split; congruence. }
  destruct (find_first
              (fun m => FormFiller.sameString (FieldMapping.name m)
                                              (DetectedField.name field))
              fieldMappings A Hin (proj2 (Hsame A) HA))
    as [pre [W [post [Hsplit [Hpre [HW Hfind]]]]]].
  exists pre, W, post. repeat split; auto.
  - intros m Hm Heq. apply Hsame in Heq. rewrite (Hpre m Hm) in Heq.
    discriminate.
  - now apply Hsame.
  - unfold FormFiller.findBestMapping. rewrite Hid.
    unfold FormFiller.nameMatch.
    rewrite (proj2 (truthy_true _) Hname), Hfind. reflexivity.
Qed.

(** Type fallback: if any mapping of the table carries the field's type
    -- whatever else it specifies -- the resolver finds a mapping for the
    field; it finds none only if no mapping has the field's type and none
    has the field's non-empty id or non-empty name. *)
Theorem typed_mapping_guarantees_answer :
  ((exists A, In A fieldMappings
              /\ FieldMapping.type A = Some (DetectedField.type field)) ->
   exists m, FormFiller.findBestMapping fieldMappings field = Some m)
  /\ (FormFiller.findBestMapping fieldMappings field = None ->
      (forall m, In m fieldMappings ->
                 FieldMapping.type m <> Some (DetectedField.type field))
      /\ (DetectedField.id field <> "" ->
          forall m, In m fieldMappings ->
                    FieldMapping.id m <> Some (DetectedField.id field))
      /\ (DetectedField.name field <> "" ->
          forall m, In m fieldMappings ->
                    FieldMapping.name m <> Some (DetectedField.name field))).
Proof.
  assert (Hstr : forall o s, FormFiller.sameString o s = false -> o <> Some s).
  { intros o s H ->. unfold FormFiller.sameString in H.
    rewrite String.eqb_refl in H. discriminate. }
  assert (Hnone : FormFiller.findBestMapping fieldMappings field = None ->
                  FormFiller.idMatch fieldMappings field = None
                  /\ FormFiller.nameMatch fieldMappings field = None
                  /\ FormFiller.typeFallback fieldMappings field = None).
  { unfold FormFiller.findBestMapping.
    destruct (FormFiller.idMatch fieldMappings field); [discriminate|].
    destruct (FormFiller.nameMatch fieldMappings field); [discriminate|].
    destruct (FormFiller.typeKeywordMatch fieldMappings field);
      [discriminate|].
    destruct (FormFiller.keywordMatch fieldMappings field); [discriminate|].
    auto. }
  assert (Htype : FormFiller.findBestMapping fieldMappings field = None ->
                  forall m, In m fieldMappings ->
                            FieldMapping.type m
                            <> Some (DetectedField.type field)).
  { intros H m Hin Heq. apply Hnone in H. destruct H as [_ [_ Hf]].
    unfold FormFiller.typeFallback in Hf.
    pose proof (find_none _ _ Hf m Hin) as Hm. simpl in Hm.
    apply sameType_true in Heq. congruence. }
  split.
  - intros [A [Hin HA]].
    destruct (FormFiller.findBestMapping fieldMappings field) as [m|] eqn:Hm;
      [now exists m|].
    exfalso. exact (Htype eq_refl A Hin HA).
  - intro H. split; [exact (Htype H)|].
    apply Hnone in H. destruct H as [Hid [Hname _]]. split.
    + intros Hne m Hin. unfold FormFiller.idMatch in Hid.
      rewrite (proj2 (truthy_true _) Hne) in Hid.
      apply Hstr. exact (find_none _ _ Hid m Hin).
    + intros Hne m Hin. unfold FormFiller.nameMatch in Hname.
      rewrite (proj2 (truthy_true _) Hne) in Hname.
      apply Hstr. exact (find_none _ _ Hname m Hin).
Qed.



End ResolverTiers.

Lemma name_match_is_second_witness :
  exists W,
    FormFiller.findBestMapping Storage.DEFAULT_FIELD_MAPPINGS
                               Samples.firstNameField
    = Some W
    /\ FieldMapping.name W = Some "firstName".
Proof.
  destruct (name_match_is_second
              Storage.DEFAULT_FIELD_MAPPINGS Samples.firstNameField
              Storage.firstNameMapping)
    as [pre [W [post [_ [_ [HW Hbest]]]]]].
  - reflexivity.
  - discriminate.
  - simpl. tauto.
  - reflexivity.
  - exists W. split; [exact Hbest|exact HW].
Defined.

(* ================================================================== *)
(** ** The default mapping table *)

Section DefaultTable.

Variable field : DetectedField.t.

Lemma default_no_id_match :
  FormFiller.idMatch Storage.DEFAULT_FIELD_MAPPINGS field = None.
Proof.
  unfold FormFiller.idMatch.
  destruct (truthy (DetectedField.id field)); reflexivity.
Qed.

(** Under the default table no mapping is ever chosen by id, and a field
    named firstName or lastName resolves to the John or the Doe mapping
    whatever its id, type, label and attributes are. *)
Theorem default_table_resolves_names :
  FormFiller.idMatch Storage.DEFAULT_FIELD_MAPPINGS field = None
  /\ (DetectedField.name field = "firstName" ->
      FormFiller.findBestMapping Storage.DEFAULT_FIELD_MAPPINGS field
      = Some Storage.firstNameMapping)
  /\ (DetectedField.name field = "lastName" ->
      FormFiller.findBestMapping Storage.DEFAULT_FIELD_MAPPINGS field
      = Some Storage.lastNameMapping).
Proof.
  split; [exact default_no_id_match|].
  split; intro Hname; unfold FormFiller.findBestMapping;
    rewrite default_no_id_match; unfold FormFiller.nameMatch;
    rewrite Hname; reflexivity.
Qed.

Lemma default_no_name_match :
  DetectedField.name field <> "firstName" ->
  DetectedField.name field <> "lastName" ->
  FormFiller.nameMatch Storage.DEFAULT_FIELD_MAPPINGS field = None.
Proof.
  intros H1 H2. unfold FormFiller.nameMatch.
  destruct (truthy (DetectedField.name field)); [|reflexivity].
  apply find_all_false. intros m Hin.
  assert (Hf : ("firstName" =? DetectedField.name field) = false)
    by (apply String.eqb_neq; congruence).
  assert (Hl : ("lastName" =? DetectedField.name field) = false)
    by (apply String.eqb_neq; congruence).
  unfold Storage.DEFAULT_FIELD_MAPPINGS in Hin. simpl in Hin.
  repeat (destruct Hin as [<-|Hin]; [first [reflexivity|exact Hf|exact Hl]|]).
  contradiction.
Qed.

Lemma list_sum_positive {A} (f : A -> nat) (l : list A) (x : A) :
  In x l -> 0 < f x -> 0 < list_sum (map f l).
Proof.
  induction l as [|y l IH]; intros Hin Hpos; [contradiction|].
  simpl. destruct Hin as [->|Hin]; [lia|].
  specialize (IH Hin Hpos). lia.
Qed.

(** Under the default table an email field that is not named firstName or
    lastName, and one of whose texts (label, placeholder, the four
    attributes, name) contains "email" or "e-mail", resolves to the email
    mapping; if its element is neither read-only nor disabled the fill
    writes test@example.com into it, dispatches [input] and [change] and
    counts it as filled. *)
Theorem default_table_fills_email (w : World) :
  DetectedField.type field = FieldType.EMAIL ->
  DetectedField.name field <> "firstName" ->
  DetectedField.name field <> "lastName" ->
  (exists entry,
      In entry (FormFiller.fieldKeywords field)
      /\ (includes entry "email" = true \/ includes entry "e-mail" = true)) ->
  FormFiller.findBestMapping Storage.DEFAULT_FIELD_MAPPINGS field
  = Some Storage.emailMapping
  /\ (Dom.readOnly (DetectedField.element field) = false ->
      Dom.disabled (DetectedField.element field) = false ->
      FormFiller.fillField Storage.DEFAULT_FIELD_MAPPINGS field w
      = (Normal true,
         Notions.written (DetectedField.element field) "test@example.com" w)).
Proof.
  intros Htype H1 H2 [entry [Hin Hcontains]].
  assert (Hbest : FormFiller.findBestMapping Storage.DEFAULT_FIELD_MAPPINGS
                                             field
                  = Some Storage.emailMapping).
  { unfold FormFiller.findBestMapping.
    rewrite default_no_id_match, (default_no_name_match H1 H2).
    assert (Hcands : FormFiller.typeMatches Storage.DEFAULT_FIELD_MAPPINGS
                                            field
                     = [Storage.emailMapping]).
    { unfold FormFiller.typeMatches. rewrite Htype. reflexivity. }
    unfold FormFiller.typeKeywordMatch. rewrite Hcands.
    change (0 <? length [Storage.emailMapping])%nat with true. cbv iota.
    unfold FormFiller.bestOf. simpl fold_left.
    unfold FormFiller.bestStep.
    change (FieldMapping.keywords Storage.emailMapping)
      with (Some ["email"; "e-mail"]).
    cbv iota beta zeta. simpl snd.
    assert (Hpos : 0 < FormFiller.typeKeywordScore
                         (FormFiller.fieldKeywords field)
                         ["email"; "e-mail"]).
    { unfold FormFiller.typeKeywordScore. rewrite typeKeywordScore_from.
      change (list_sum
                (map (fun keyword =>
                        list_sum
                          (map (Spec.entryPoints (toLowerCase keyword))
                               (FormFiller.fieldKeywords field)))
                     ["email"; "e-mail"]))
        with (list_sum (map (Spec.entryPoints "email")
                            (FormFiller.fieldKeywords field))
              + (list_sum (map (Spec.entryPoints "e-mail")
                               (FormFiller.fieldKeywords field))
                 + 0)).
      destruct Hcontains as [Hc|Hc].
      - assert (0 < list_sum (map (Spec.entryPoints "email")
                                  (FormFiller.fieldKeywords field))).
        { apply (list_sum_positive _ _ entry Hin).
          unfold Spec.entryPoints. rewrite Hc.
          destruct (entry =? "email"); lia. }
        lia.
      - assert (0 < list_sum (map (Spec.entryPoints "e-mail")
                                  (FormFiller.fieldKeywords field))).
        { apply (list_sum_positive _ _ entry Hin).
          unfold Spec.entryPoints. rewrite Hc.
          destruct (entry =? "e-mail"); lia. }
        lia. }
    apply Nat.ltb_lt in Hpos. rewrite Hpos. reflexivity. }
  split; [exact Hbest|].
  intros Hro Hdis.
  unfold FormFiller.fillField, FormFiller.fillFieldBody, tryCatch.
  rewrite Hbest, Htype. unfold FormFiller.fillInputField.
  rewrite Hro, Hdis. reflexivity.
Qed.

End DefaultTable.

Lemma default_table_fills_email_witness :
  FormFiller.fillField Storage.DEFAULT_FIELD_MAPPINGS Examples.emailField
                       (Examples.page 0 false)
  = (Normal true,
     Notions.written Examples.emailInput "test@example.com"
                     (Examples.page 0 false)).
Proof.
  apply (default_table_fills_email Examples.emailField (Examples.page 0 false)).
  - reflexivity.
  - discriminate.
  - discriminate.
  - exists "email". split; [simpl; tauto|]. left. reflexivity.
  - reflexivity.
  - reflexivity.
Defined.

Lemma default_table_resolves_names_witness :
  FormFiller.findBestMapping Storage.DEFAULT_FIELD_MAPPINGS Samples.lockedField
  = Some Storage.firstNameMapping.
Proof.
  apply (default_table_resolves_names Samples.lockedField). reflexivity.
Defined.

(* ================================================================== *)
(** ** Further properties of the filler *)

Section FillShapes.

Import Dom.

Lemma fillInputField_cases input value w :
  FormFiller.fillInputField input value w
  = if readOnly input || disabled input
    then (Normal false,
          Notions.noted DEBUG
            ("Field is read-only or disabled: "
             ++ orElse (Dom.id input) (Dom.name input))%string w)
    else (Normal true, Notions.written input (FormFiller.valueToString value) w).
Proof.
  unfold FormFiller.fillInputField.
  destruct (readOnly input || disabled input); reflexivity.
Qed.

Lemma fillTextareaField_cases textarea value w :
  FormFiller.fillTextareaField textarea value w
  = if readOnly textarea || disabled textarea
    then (Normal false,
          Notions.noted DEBUG
            ("Field is read-only or disabled: "
             ++ orElse (Dom.id textarea) (Dom.name textarea))%string w)
    else (Normal true,
          Notions.written textarea (FormFiller.valueToString value) w).
Proof.
  unfold FormFiller.fillTextareaField.
  destruct (readOnly textarea || disabled textarea); reflexivity.
Qed.

Lemma fillToggleField_cases input value w :
  FormFiller.fillToggleField input value w
  = if disabled input
    then (Normal false,
          Notions.noted DEBUG
            ("Field is disabled: "
             ++ orElse (Dom.id input) (Dom.name input))%string w)
    else if FormFiller.checkedDiffers
              (Props.checked (props w (handle input))) value
         then (Normal true,
               Spec.toggled input (FormFiller.valueToBoolean value) w)
         else (Normal true, w).
Proof.
  unfold FormFiller.fillToggleField. destruct (disabled input);
    [reflexivity|].
  unfold bind, getProps. simpl.
  destruct (FormFiller.checkedDiffers
              (Props.checked (props w (handle input))) value); reflexivity.
Qed.

Lemma fillSelectField_disabled select value w :
  disabled select = true ->
  FormFiller.fillSelectField select value w
  = (Normal false,
     Notions.noted DEBUG
       ("Field is disabled: "
        ++ orElse (Dom.id select) (Dom.name select))%string w).
Proof.
  intro H. unfold FormFiller.fillSelectField. rewrite H. reflexivity.
Qed.

(** A boolean mapping value on a select: [toLowerCase] is called on it for
    the first option, before anything is written. *)
Lemma fillSelectField_boolean select b w :
  disabled select = false ->
  FormFiller.fillSelectField select (VBoolean b) w
  = match Props.options (props w (handle select)) with
    | [] => (Normal false, w)
    | _ :: _ => (Throw TypeError, w)
    end.
Proof.
  intro H. unfold FormFiller.fillSelectField. rewrite H.
  unfold bind, getProps, liftCompletion. simpl.
  destruct (Props.options (props w (handle select))) as [|o os] eqn:Ho;
    simpl; [|reflexivity].
  unfold FormFiller.fallbackGuard. rewrite Ho. simpl.
  rewrite andb_false_r. reflexivity.
Qed.

Lemma candidates_cases value :
  (exists cs, Spec.candidates value = Some cs) \/ (exists b, value = VBoolean b).
Proof.
  destruct value as [s|b|xs]; [left|right|left]; eexists; reflexivity.
Qed.

Lemma fillSelectField_shape select value w :
  match FormFiller.fillSelectField select value w with
  | (Normal r, w') => Notions.FillShape select w (Normal r, w')
  | (Throw _, w') => w' = w
  end.
Proof.
  destruct (disabled select) eqn:Hd.
  - rewrite (fillSelectField_disabled select value w Hd). constructor.
  - destruct (candidates_cases value) as [[cs Hcs]|[b ->]].
    + rewrite (fillSelectField_strings select value cs w Hd Hcs). cbv zeta.
      destruct (Spec.passesFind cs (Props.options (props w (handle select)))).
      * constructor.
      * destruct (FormFiller.fallbackGuard false (props w (handle select)));
          constructor.
    + rewrite (fillSelectField_boolean select b w Hd).
      destruct (Props.options (props w (handle select)));
        [constructor|reflexivity].
Qed.

Variable fieldMappings : list FieldMapping.t.

(** Every run of [fillField] ends in one of the six ways. *)
Lemma fillField_shape field w :
  Notions.FillShape (DetectedField.element field) w
                    (FormFiller.fillField fieldMappings field w).
Proof.
  unfold FormFiller.fillField, FormFiller.fillFieldBody, tryCatch.
  destruct (FormFiller.findBestMapping fieldMappings field) as [mapping|];
    [|constructor].
  destruct (DetectedField.type field);
    try (rewrite fillInputField_cases;
         destruct (readOnly (DetectedField.element field)
                   || disabled (DetectedField.element field));
         constructor);
    try (rewrite fillTextareaField_cases;
         destruct (readOnly (DetectedField.element field)
                   || disabled (DetectedField.element field));
         constructor);
    try (rewrite fillToggleField_cases;
         destruct (disabled (DetectedField.element field));
         [constructor|];
         destruct (FormFiller.checkedDiffers _ _); constructor);
    try constructor.
  pose proof (fillSelectField_shape (DetectedField.element field)
                (FieldMapping.value mapping) w) as Hs.
  destruct (FormFiller.fillSelectField (DetectedField.element field)
              (FieldMapping.value mapping) w) as [[r|e] w'].
  - exact Hs.
  - subst w'. constructor.
Qed.

(** A field that is not filled is not touched: when [fillField] returns
    false -- no mapping, a read-only or disabled element, an unsupported
    type, a select without a match, or an exception in between -- the
    properties of every control and the trace of dispatched events are
    what they were; only the log has grown. *)
Theorem unfilled_field_is_untouched field w w' :
  FormFiller.fillField fieldMappings field w = (Normal false, w') ->
  props w' = props w
  /\ dispatched w' = dispatched w
  /\ exists entries, logged w' = logged w ++ entries.
Proof.
  intro H. pose proof (fillField_shape field w) as Hs. rewrite H in Hs.
  inversion Hs; subst.
  - repeat split. eexists. reflexivity.
  - repeat split. exists []. now rewrite app_nil_r.
Qed.

(** A disabled element is never filled, whatever its field type and the
    mapping found for it, and neither is a read-only element of a
    text-like or textarea field: [fillField] returns false and leaves
    properties and events as they were. *)
Theorem disabled_and_readonly_are_skipped field w :
  disabled (DetectedField.element field) = true
  \/ (readOnly (DetectedField.element field) = true
      /\ (Notions.textLike (DetectedField.type field) = true
          \/ DetectedField.type field = FieldType.TEXTAREA)) ->
  exists w',
    FormFiller.fillField fieldMappings field w = (Normal false, w')
    /\ props w' = props w
    /\ dispatched w' = dispatched w.
Proof.
  intro H.
  assert (Hfalse : exists w',
             FormFiller.fillField fieldMappings field w = (Normal false, w')).
  { unfold FormFiller.fillField, FormFiller.fillFieldBody, tryCatch.
    destruct (FormFiller.findBestMapping fieldMappings field) as [mapping|];
      [|eexists; reflexivity].
    destruct H as [Hd|[Hr Ht]].
    - destruct (DetectedField.type field);
        try (rewrite fillInputField_cases, Hd, orb_true_r;
             eexists; reflexivity);
        try (rewrite fillTextareaField_cases, Hd, orb_true_r;
             eexists; reflexivity);
        try (rewrite fillToggleField_cases, Hd; eexists; reflexivity);
        try (rewrite (fillSelectField_disabled _ _ _ Hd);
             eexists; reflexivity);
        eexists; reflexivity.
    - destruct Ht as [Ht|Ht].
      + destruct (DetectedField.type field); try discriminate;
          rewrite fillInputField_cases, Hr; eexists; reflexivity.
      + rewrite Ht, fillTextareaField_cases, Hr. eexists. reflexivity. }
  destruct Hfalse as [w' Hw']. exists w'. split; [exact Hw'|].
  pose proof (fillField_shape field w) as Hs. rewrite Hw' in Hs.
  inversion Hs; subst; split; reflexivity.
Qed.

End FillShapes.

Section FillFrame.

Import Dom.

Variable fieldMappings : list FieldMapping.t.

(** What one [fillField] may change: only the element's own properties,
    at most two events, all on the element, and none when the result is
    false. *)
Lemma fillField_frame field w :
  exists filled w1 events,
    FormFiller.fillField fieldMappings field w = (Normal filled, w1)
    /\ (forall h, h <> handle (DetectedField.element field) ->
                  props w1 h = props w h)
    /\ dispatched w1 = dispatched w ++ events
    /\ (forall ev, In ev events ->
                   fst ev = handle (DetectedField.element field))
    /\ length events <= (if filled then 2 else 0).
Proof.
  pose proof (fillField_shape fieldMappings field w) as Hs.
  assert (Hother : forall h f,
             h <> handle (DetectedField.element field) ->
             (if (h =? handle (DetectedField.element field))%nat
              then f (props w h) else props w h) = props w h).
  { intros h f Hne. apply Nat.eqb_neq in Hne. now rewrite Hne. }
  inversion Hs; subst.
  - exists false, (Notions.noted lvl msg w), []. repeat split; auto.
    + simpl. now rewrite app_nil_r.
    + intros ev [].
  - exists true, (Notions.written (DetectedField.element field) s w),
      [(handle (DetectedField.element field), "input");
       (handle (DetectedField.element field), "change")].
    repeat split; simpl; auto.
    + now rewrite <- app_assoc.
    + intros ev [<-|[<-|[]]]; reflexivity.
  - exists true, (Spec.selected (DetectedField.element field) i w),
      [(handle (DetectedField.element field), "change")].
    repeat split; simpl; auto.
    intros ev [<-|[]]; reflexivity.
  - exists true, (Spec.toggled (DetectedField.element field) b w),
      [(handle (DetectedField.element field), "click");
       (handle (DetectedField.element field), "change")].
    repeat split; simpl; auto.
    + now rewrite <- app_assoc.
    + intros ev [<-|[<-|[]]]; reflexivity.
  - exists true, w, []. repeat split; simpl; auto.
    + now rewrite app_nil_r.
    + intros ev [].
  - exists false, w, []. repeat split; simpl; auto.
    + now rewrite app_nil_r.
    + intros ev [].
Qed.

Lemma afterFill_frame fields w :
  (forall h,
      ~ In h (map (fun f => handle (DetectedField.element f)) fields) ->
      props (Spec.afterFill fieldMappings fields w) h = props w h)
  /\ exists events,
      dispatched (Spec.afterFill fieldMappings fields w)
      = dispatched w ++ events
      /\ Notions.targets
           (map (fun f => handle (DetectedField.element f)) fields) events
      /\ length events
         <= 2 * Spec.filledCount (Spec.outcomes fieldMappings fields w).
Proof.
  revert w. induction fields as [|field rest IH]; intro w.
  - split; [reflexivity|]. exists []. simpl. rewrite app_nil_r.
    repeat split; [intros ev []|unfold Spec.filledCount; simpl; lia].
  - destruct (fillField_frame field w)
      as [filled [w1 [events [Hf [Hprops [Hd [Hev Hlen]]]]]]].
    destruct (IH w1) as [IHprops [evs [IHd [IHt IHlen]]]].
    simpl. rewrite Hf. simpl. split.
    + intros h Hnot. rewrite IHprops; [apply Hprops|]; intro; apply Hnot; auto.
    + exists (events ++ evs). rewrite IHd, Hd, app_assoc.
      split; [reflexivity|]. split.
      * intros ev Hin. apply in_app_or in Hin. destruct Hin as [Hin|Hin].
        -- left. symmetry. now apply Hev.
        -- right. now apply IHt.
      * rewrite length_app. unfold Spec.filledCount in *. simpl.
        destruct filled; simpl in *; lia.
Qed.

(** The fill loop touches only the elements of the fields it is given,
    provided none of them is a radio button (checking a radio button
    unchecks the rest of its group, listed or not): the properties of
    every other control are unchanged, every event it dispatches targets
    the element of a listed field, earlier events stay in place, and there
    are at most two events for each field counted as filled. *)
Theorem fill_touches_only_listed_elements fields w :
  (forall f, In f fields ->
             Notions.isRadio (DetectedField.element f) = false) ->
  let after := FormFiller.fillFields fieldMappings fields w in
  let listed := map (fun f => handle (DetectedField.element f)) fields in
  (forall h, ~ In h listed -> props (snd after) h = props w h)
  /\ exists filledCount events,
      fst after = Normal filledCount
      /\ dispatched (snd after) = dispatched w ++ events
      /\ Notions.targets listed events
      /\ length events <= 2 * filledCount.
Proof.
  intros _.
  cbv zeta. unfold FormFiller.fillFields. rewrite fillLoop_counts. simpl.
  destruct (afterFill_frame fields w) as [Hprops [events [Hd [Ht Hlen]]]].
  split; [exact Hprops|].
  exists (Spec.filledCount (Spec.outcomes fieldMappings fields w)), events.
  auto.
Qed.

(** A text-like or textarea field for which a mapping is found, whose
    element is a control that holds a single-line string as it is assigned
    (a textarea, or an input of type text, search, password or tel) and
    whose mapping value has no line break in its string form, is filled
    exactly when the element is neither read-only nor disabled; the value
    it then holds is the mapping value as a string -- a boolean as true
    or false, an array joined with commas -- and [input] and [change]
    follow. *)
Theorem text_field_is_filled_iff_writable field mapping w :
  FormFiller.findBestMapping fieldMappings field = Some mapping ->
  Notions.textLike (DetectedField.type field) = true
  \/ DetectedField.type field = FieldType.TEXTAREA ->
  Notions.holdsAssigned (DetectedField.element field) = true ->
  Notions.singleLine (FormFiller.valueToString (FieldMapping.value mapping))
  = true ->
  FormFiller.fillField fieldMappings field w
  = if readOnly (DetectedField.element field)
       || disabled (DetectedField.element field)
    then (Normal false,
          Notions.noted DEBUG
            ("Field is read-only or disabled: "
             ++ orElse (Dom.id (DetectedField.element field))
                       (Dom.name (DetectedField.element field)))%string w)
    else (Normal true,
          Notions.written
            (DetectedField.element field)
            (match FieldMapping.value mapping with
             | VString s => s
             | VBoolean b => if b then "true" else "false"
             | VArray xs => join "," xs
             end) w).
Proof.
  intros Hm Ht _ _.
  assert (Hv : FormFiller.valueToString (FieldMapping.value mapping)
               = match FieldMapping.value mapping with
                 | VString s => s
                 | VBoolean b => if b then "true" else "false"
                 | VArray xs => join "," xs
                 end).
  { destruct (FieldMapping.value mapping) as [s|[|]|xs]; reflexivity. }
  rewrite <- Hv.
  unfold FormFiller.fillField, FormFiller.fillFieldBody, tryCatch.
  rewrite Hm. destruct Ht as [Ht|Ht].
  - destruct (DetectedField.type field); try discriminate;
      rewrite fillInputField_cases;
      destruct (readOnly (DetectedField.element field)
                || disabled (DetectedField.element field)); reflexivity.
  - rewrite Ht, fillTextareaField_cases.
    destruct (readOnly (DetectedField.element field)
              || disabled (DetectedField.element field)); reflexivity.
Qed.

(** Color, range and file inputs, and fields of unknown type, are never
    filled: with or without a mapping [fillField] returns false and leaves
    properties and events as they were, and when the resolver does find a
    mapping the run ends in the default branch of the switch, with the one
    logger call that names the unsupported type. *)
Theorem unsupported_types_are_never_filled field w :
  Notions.unsupported (DetectedField.type field) = true ->
  (exists w',
      FormFiller.fillField fieldMappings field w = (Normal false, w')
      /\ props w' = props w
      /\ dispatched w' = dispatched w)
  /\ (forall mapping,
         FormFiller.findBestMapping fieldMappings field = Some mapping ->
         FormFiller.fillField fieldMappings field w
         = (Normal false,
            Notions.noted DEBUG
              ("Unsupported field type: "
               ++ FieldType.toString (DetectedField.type field))%string w)).
Proof.
  intro Hu. split.
  - unfold FormFiller.fillField, FormFiller.fillFieldBody, tryCatch.
    destruct (FormFiller.findBestMapping fieldMappings field) as [mapping|];
      [|eexists; repeat split].
    destruct (DetectedField.type field); try discriminate;
      eexists; repeat split.
  - intros mapping Hm.
    unfold FormFiller.fillField, FormFiller.fillFieldBody, tryCatch.
    rewrite Hm.
    destruct (DetectedField.type field); try discriminate; reflexivity.
Qed.

End FillFrame.

Lemma findBestMapping_nil field :
  FormFiller.findBestMapping [] field = None.
Proof.
  unfold FormFiller.findBestMapping, FormFiller.idMatch, FormFiller.nameMatch.
  destruct (truthy (DetectedField.id field)),
    (truthy (DetectedField.name field)); reflexivity.
Qed.

(** With an empty mapping table the fill loop fills nothing: it returns 0
    for every field list, changes no property, dispatches no event, and
    makes one logger call for each field. *)
Theorem empty_table_fills_nothing (fields : list DetectedField.t) (w : World) :
  let after := FormFiller.fillFields [] fields w in
  fst after = Normal 0
  /\ props (snd after) = props w
  /\ dispatched (snd after) = dispatched w
  /\ length (logged (snd after)) = length (logged w) + length fields.
Proof.
  cbv zeta. unfold FormFiller.fillFields. rewrite fillLoop_counts. simpl.
  assert (Hstep : forall field w0,
             FormFiller.fillField [] field w0
             = (Normal false,
                Notions.noted DEBUG
                  ("No mapping found for field: "
                   ++ orElse (DetectedField.id field)
                             (DetectedField.name field))%string w0)).
  { intros field w0.
    unfold FormFiller.fillField, FormFiller.fillFieldBody, tryCatch.
    rewrite findBestMapping_nil. reflexivity. }
  assert (Haux : forall fs w0,
             Spec.filledCount (Spec.outcomes [] fs w0) = 0
             /\ props (Spec.afterFill [] fs w0) = props w0
             /\ dispatched (Spec.afterFill [] fs w0) = dispatched w0
             /\ length (logged (Spec.afterFill [] fs w0))
                = length (logged w0) + length fs).
  { induction fs as [|field rest IH]; intro w0.
    - simpl. repeat split. lia.
    - cbn [Spec.outcomes Spec.afterFill]. rewrite Hstep. cbn [snd].
      destruct (IH (Notions.noted DEBUG
                      ("No mapping found for field: "
                       ++ orElse (DetectedField.id field)
                                 (DetectedField.name field))%string w0))
        as [Hc [Hp [Hd Hl]]].
      split; [exact Hc|]. split; [exact Hp|]. split; [exact Hd|].
      rewrite Hl. unfold Notions.noted. cbn [logged length].
      rewrite length_app. simpl. lia. }
  destruct (Haux fields w) as [Hc [Hp [Hd Hl]]].
  rewrite Hc. auto.
Qed.

Section SelectChoice.

Import Dom.

Lemma firstIndexFrom_some hit options k i :
  Spec.firstIndexFrom hit options k = Some i ->
  exists n option,
    i = (k + Z.of_nat n)%Z
    /\ nth_error options n = Some option
    /\ hit option = true
    /\ forall j o, j < n -> nth_error options j = Some o -> hit o = false.
Proof.
  revert k. induction options as [|o options IH]; intro k; simpl;
    [discriminate|].
  destruct (hit o) eqn:Ho.
  - intros [= <-]. exists 0, o. repeat split; auto; [lia|].
    intros j o' Hj. lia.
  - intro H. destruct (IH _ H) as [n [option [Hi [Hn [Hh Hbefore]]]]].
    exists (S n), option. repeat split; auto; [lia|].
    intros [|j] o' Hj Ho'; simpl in Ho'.
    + injection Ho' as <-. exact Ho.
    + apply (Hbefore j o'); [lia|exact Ho'].
Qed.

Lemma firstIndexFrom_ext hit hit' options k :
  (forall option, hit option = hit' option) ->
  Spec.firstIndexFrom hit options k = Spec.firstIndexFrom hit' options k.
Proof.
  intro H. revert k. induction options as [|o options IH]; intro k; simpl;
    [reflexivity|].
  rewrite H. destruct (hit' o); [reflexivity|apply IH].
Qed.

Lemma existsb_same_members {A} (f : A -> bool) (xs ys : list A) :
  (forall x, In x xs <-> In x ys) -> existsb f xs = existsb f ys.
Proof.
  intro H. apply eq_true_iff_eq. rewrite !existsb_exists.
  split; intros [x [Hin Hf]]; exists x; split; auto; now apply H.
Qed.

(** A select that is counted as filled has a selection inside its option
    list, and the option has a reason to be there: it is the first option
    that equals a candidate; or no option equals one and it is the first
    that contains a candidate; or no option matches at all and it is the
    option the placeholder rule names.  A boolean mapping value never
    fills a select. *)
Theorem selected_option_is_justified select value w w' :
  FormFiller.fillSelectField select value w = (Normal true, w') ->
  let p := props w (handle select) in
  exists cs n option,
    Spec.candidates value = Some cs
    /\ nth_error (Props.options p) n = Some option
    /\ w' = Spec.selected select (Z.of_nat n) w
    /\ ((Spec.exactHit cs option = true
         /\ forall j o, j < n -> nth_error (Props.options p) j = Some o ->
                        Spec.exactHit cs o = false)
        \/ ((forall o, In o (Props.options p) -> Spec.exactHit cs o = false)
            /\ Spec.substringHit cs option = true
            /\ forall j o, j < n -> nth_error (Props.options p) j = Some o ->
                           Spec.substringHit cs o = false)
        \/ (Spec.passesFind cs (Props.options p) = None
            /\ (Props.selectedIndex p <= 0)%Z
            /\ Z.of_nat n = Spec.fallbackIndex (Props.options p))).
Proof.
  intros H p.
  destruct (disabled select) eqn:Hd.
  { rewrite (fillSelectField_disabled select value w Hd) in H.
    discriminate. }
  destruct (candidates_cases value) as [[cs Hcs]|[b ->]].
  2:{ rewrite (fillSelectField_boolean select b w Hd) in H.
      destruct (Props.options (props w (handle select))); discriminate. }
  rewrite (fillSelectField_strings select value cs w Hd Hcs) in H.
  cbv zeta in H. fold p in H. unfold Spec.passesFind in *.
  destruct (Spec.firstIndexFrom (Spec.exactHit cs) (Props.options p) 0)
    as [i|] eqn:He.
  - injection H as <-.
    destruct (firstIndexFrom_some _ _ _ _ He)
      as [n [option [-> [Hn [Hh Hb]]]]].
    exists cs, n, option. repeat split; auto.
  - destruct (Spec.firstIndexFrom (Spec.substringHit cs) (Props.options p) 0)
      as [i|] eqn:Hs.
    + injection H as <-.
      destruct (firstIndexFrom_some _ _ _ _ Hs)
        as [n [option [-> [Hn [Hh Hb]]]]].
      exists cs, n, option. repeat split; auto.
      right. left. repeat split; auto.
      exact (proj1 (firstIndexFrom_nil_iff _ _ _) He).
    + unfold FormFiller.fallbackGuard in H. fold p in H. cbn [negb andb] in H.
      destruct (Z.leb_spec (Props.selectedIndex p) 0) as [Hidx|Hidx];
        [|discriminate].
      destruct (Props.options p) as [|o1 [|o2 os]] eqn:Ho;
        try discriminate.
      change (1 <? length (o1 :: o2 :: os))%nat with true in H.
      injection H as <-.
      assert (Hnone : match Spec.firstIndexFrom (Spec.exactHit cs)
                              (o1 :: o2 :: os) 0 with
                      | Some i => Some i
                      | None => Spec.firstIndexFrom (Spec.substringHit cs)
                                  (o1 :: o2 :: os) 0
                      end = None) by now rewrite He, Hs.
      unfold Spec.fallbackIndex.
      destruct (FormFiller.isPlaceholder o1).
      * exists cs, 1, o2. split; [exact Hcs|]. split; [reflexivity|].
        split; [reflexivity|]. right. right. auto.
      * exists cs, 0, o1. split; [exact Hcs|]. split; [reflexivity|].
        split; [reflexivity|]. right. right. auto.
Qed.

(** The candidates of an array value are alternatives without rank: two
    arrays with the same members, in any order and with any repetition,
    fill a select in the same way.  The option list decides: the earliest
    option that some candidate matches is the one selected. *)
Theorem candidate_order_is_irrelevant select cs cs' w :
  (forall c, In c cs <-> In c cs') ->
  FormFiller.fillSelectField select (VArray cs) w
  = FormFiller.fillSelectField select (VArray cs') w.
Proof.
  intro Hsame. destruct (disabled select) eqn:Hd.
  - now rewrite !(fillSelectField_disabled select _ w Hd).
  - rewrite (fillSelectField_strings select (VArray cs) cs w Hd eq_refl).
    rewrite (fillSelectField_strings select (VArray cs') cs' w Hd eq_refl).
    assert (Hfind : forall options,
               Spec.passesFind cs options = Spec.passesFind cs' options).
    { intro options. unfold Spec.passesFind.
      rewrite (firstIndexFrom_ext (Spec.exactHit cs) (Spec.exactHit cs'));
        [|intro o; apply existsb_same_members; exact Hsame].
      rewrite (firstIndexFrom_ext (Spec.substringHit cs)
                                  (Spec.substringHit cs'));
        [|intro o; apply existsb_same_members; exact Hsame].
      reflexivity. }
    cbv zeta. now rewrite Hfind.
Qed.

End SelectChoice.

Lemma selected_option_is_justified_witness :
  exists n,
    snd (FormFiller.fillSelectField Examples.genderSelect (VString "L")
                                    (Samples.sizePage 0))
    = Spec.selected Examples.genderSelect (Z.of_nat n) (Samples.sizePage 0)
    /\ n < length Samples.sizeOptions.
Proof.
  destruct (selected_option_is_justified
              Examples.genderSelect (VString "L") (Samples.sizePage 0)
              (Spec.selected Examples.genderSelect 1 (Samples.sizePage 0))
              eq_refl)
    as [cs [n [option [_ [Hn [Hw _]]]]]].
  exists n. split.
  - rewrite <- Hw. reflexivity.
  - apply nth_error_Some. simpl in Hn. rewrite Hn. discriminate.
Defined.

Lemma candidate_order_is_irrelevant_witness :
  FormFiller.fillSelectField Examples.genderSelect (VArray ["Female"; "Male"])
                             (Examples.page 0 false)
  = FormFiller.fillSelectField Examples.genderSelect
                               (VArray ["Male"; "Female"; "Male"])
                               (Examples.page 0 false).
Proof.
  apply (candidate_order_is_irrelevant
           Examples.genderSelect ["Female"; "Male"]
           ["Male"; "Female"; "Male"] (Examples.page 0 false)).
  intro c. simpl. tauto.
Defined.

Section Idempotence.

Import Dom.

Lemma fillSelectField_twice select value w wa :
  props wa = props (snd (FormFiller.fillSelectField select value w)) ->
  forall h,
    props (snd (FormFiller.fillSelectField select value wa)) h = props wa h.
Proof.
  intros Hp h. destruct (disabled select) eqn:Hd.
  { rewrite (fillSelectField_disabled select value wa Hd). reflexivity. }
  destruct (candidates_cases value) as [[cs Hcs]|[b ->]].
  2:{ rewrite (fillSelectField_boolean select b wa Hd).
      destruct (Props.options (props wa (handle select))); reflexivity. }
  rewrite (fillSelectField_strings select value cs w Hd Hcs) in Hp.
  rewrite (fillSelectField_strings select value cs wa Hd Hcs).
  cbv zeta in *.
  assert (Hsel : forall i,
             props wa = props (Spec.selected select i w) ->
             props wa (handle select)
             = Props.setSelectedIndex i (props w (handle select))).
  { intros i H. rewrite H. simpl. now rewrite Nat.eqb_refl. }
  assert (Hagain : forall i,
             props wa (handle select)
             = Props.setSelectedIndex i (props w (handle select)) ->
             props (Spec.selected select i wa) h = props wa h).
  { intros i H. simpl. destruct (Nat.eqb_spec h (handle select)) as [->|_];
      [|reflexivity].
    rewrite H. reflexivity. }
  destruct (Spec.passesFind cs (Props.options (props w (handle select))))
    as [i|] eqn:Hfind.
  - pose proof (Hsel i Hp) as Hpa.
    assert (Ho : Props.options (props wa (handle select))
                 = Props.options (props w (handle select)))
      by now rewrite Hpa.
    rewrite Ho, Hfind. simpl snd. now apply Hagain.
  - destruct (FormFiller.fallbackGuard false (props w (handle select)))
      eqn:Hg.
    + pose proof (Hsel _ Hp) as Hpa.
      assert (Ho : Props.options (props wa (handle select))
                   = Props.options (props w (handle select)))
        by now rewrite Hpa.
      rewrite Ho, Hfind.
      destruct (FormFiller.fallbackGuard false (props wa (handle select)));
        [|reflexivity].
      simpl snd. now apply Hagain.
    + simpl in Hp. rewrite Hp, Hfind, Hg. simpl. now rewrite Hp.
Qed.

Variable fieldMappings : list FieldMapping.t.

(** Filling a field a second time changes no property: after [fillField]
    has run once on a field, running it again on the same field leaves the
    value, checked state and selection of every control as the first run
    left them.  (The second run may dispatch its events again, and a select
    filled by the placeholder rule may be reported unfilled by it.) *)
Theorem refill_changes_no_property field w :
  let once := snd (FormFiller.fillField fieldMappings field w) in
  let twice := snd (FormFiller.fillField fieldMappings field once) in
  forall h, props twice h = props once h.
Proof.
  cbv zeta. unfold FormFiller.fillField, FormFiller.fillFieldBody, tryCatch.
  destruct (FormFiller.findBestMapping fieldMappings field) as [mapping|];
    [|reflexivity].
  destruct (DetectedField.type field);
    try (rewrite !fillInputField_cases;
         destruct (readOnly (DetectedField.element field)
                   || disabled (DetectedField.element field));
         simpl; intro h; [reflexivity|];
         destruct (h =? handle (DetectedField.element field))%nat;
         reflexivity);
    try reflexivity.
  - (* SELECT *)
    intro h.
    set (el := DetectedField.element field).
    set (v := FieldMapping.value mapping).
    set (once := snd (let (c, w') := FormFiller.fillSelectField el v w in
                      match c with
                      | Normal a => (Normal a, w')
                      | Throw _ =>
                          bind (logger ERROR
                                  ("Error filling field: "
                                   ++ orElse (DetectedField.id field)
                                             (DetectedField.name field))%string)
                               (fun _ => ret false) w'
                      end)).
    assert (Honce : props once
                    = props (snd (FormFiller.fillSelectField el v w))).
    { unfold once.
      destruct (FormFiller.fillSelectField el v w) as [[a|e] w'];
        reflexivity. }
    pose proof (fillSelectField_twice el v w once Honce h) as Htwice.
    destruct (FormFiller.fillSelectField el v once) as [[a|e] w'];
      exact Htwice.
  - (* CHECKBOX *)
    rewrite (fillToggleField_cases _ _ w).
    destruct (disabled (DetectedField.element field)) eqn:Hd.
    + rewrite fillToggleField_cases, Hd. reflexivity.
    + destruct (FormFiller.checkedDiffers
                  (Props.checked (props w (handle (DetectedField.element field))))
                  (FieldMapping.value mapping)) eqn:Hc.
      * cbn [snd]. rewrite fillToggleField_cases, Hd. simpl.
        rewrite Nat.eqb_refl. simpl.
        destruct (FieldMapping.value mapping) as [s|b|xs]; simpl;
          try (intro h;
               destruct (h =? handle (DetectedField.element field))%nat;
               reflexivity).
        rewrite Bool.eqb_reflx. reflexivity.
      * cbn [snd]. rewrite fillToggleField_cases, Hd, Hc. reflexivity.
  - (* RADIO *)
    rewrite (fillToggleField_cases _ _ w).
    destruct (disabled (DetectedField.element field)) eqn:Hd.
    + rewrite fillToggleField_cases, Hd. reflexivity.
    + destruct (FormFiller.checkedDiffers
                  (Props.checked (props w (handle (DetectedField.element field))))
                  (FieldMapping.value mapping)) eqn:Hc.
      * cbn [snd]. rewrite fillToggleField_cases, Hd. simpl.
        rewrite Nat.eqb_refl. simpl.
        destruct (FieldMapping.value mapping) as [s|b|xs]; simpl;
          try (intro h;
               destruct (h =? handle (DetectedField.element field))%nat;
               reflexivity).
        rewrite Bool.eqb_reflx. reflexivity.
      * cbn [snd]. rewrite fillToggleField_cases, Hd, Hc. reflexivity.
Qed.

End Idempotence.

Lemma unfilled_field_is_untouched_witness :
  props (Notions.noted DEBUG "Field is read-only or disabled: firstName"
                       (Examples.page 0 false))
  = props (Examples.page 0 false)
  /\ dispatched (snd (FormFiller.fillField Storage.DEFAULT_FIELD_MAPPINGS
                                           Samples.lockedField
                                           (Examples.page 0 false)))
     = [].
Proof.
  destruct (unfilled_field_is_untouched
              Storage.DEFAULT_FIELD_MAPPINGS Samples.lockedField
              (Examples.page 0 false)
              (Notions.noted DEBUG "Field is read-only or disabled: firstName"
                             (Examples.page 0 false))
              eq_refl) as [Hp [Hd _]].
  split; [exact Hp|exact Hd].
Defined.

Lemma disabled_and_readonly_are_skipped_witness :
  exists w',
    FormFiller.fillField Storage.DEFAULT_FIELD_MAPPINGS Samples.lockedField
                         (Examples.page 0 false)
    = (Normal false, w')
    /\ props w' = props (Examples.page 0 false)
    /\ dispatched w' = [].
Proof.
  apply (disabled_and_readonly_are_skipped
           Storage.DEFAULT_FIELD_MAPPINGS Samples.lockedField
           (Examples.page 0 false)).
  right. split; [reflexivity|]. left. reflexivity.
Defined.

Lemma text_field_is_filled_iff_writable_witness :
  FormFiller.fillField Storage.DEFAULT_FIELD_MAPPINGS Samples.firstNameField
                       (Examples.page 0 false)
  = (Normal true,
     Notions.written Samples.firstNameInput "John" (Examples.page 0 false)).
Proof.
  apply (text_field_is_filled_iff_writable
           Storage.DEFAULT_FIELD_MAPPINGS Samples.firstNameField
           Storage.firstNameMapping (Examples.page 0 false)).
  - reflexivity.
  - left. reflexivity.
  - reflexivity.
  - reflexivity.
Defined.

Lemma unsupported_types_are_never_filled_witness :
  FormFiller.findBestMapping [Samples.tintByName] Samples.colorField
  = Some Samples.tintByName
  /\ FormFiller.fillField [Samples.tintByName] Samples.colorField
                          (Examples.page 0 false)
     = (Normal false,
        Notions.noted DEBUG "Unsupported field type: color"
                      (Examples.page 0 false)).
Proof.
  split; [reflexivity|].
  apply (proj2 (unsupported_types_are_never_filled
                  [Samples.tintByName] Samples.colorField
                  (Examples.page 0 false) eq_refl)
               Samples.tintByName).
  reflexivity.
Defined.

(* ================================================================== *)
(** ** Further properties of the scanner *)

Section ScanUnits.

Import Dom.

Variable findLabel : Document -> Element -> Completion (option string).
Variable doc : Document.

Lemma detectStep_errors inputs acc :
  snd (fold_left (FieldDetector.detectStep findLabel doc) inputs acc)
  = snd acc
    ++ repeat (mkLog ERROR "Error detecting field")
              (length (Notions.failing findLabel doc inputs)).
Proof.
  revert acc. induction inputs as [|e inputs IH]; intro acc; simpl.
  - now rewrite app_nil_r.
  - rewrite IH. unfold FieldDetector.detectStep.
    destruct (FieldDetector.createDetectedField findLabel doc e)
      as [[f|]|err]; simpl; try reflexivity.
    now rewrite <- app_assoc.
Qed.

Lemma created_elements inputs :
  map DetectedField.element (Spec.created findLabel doc inputs)
  = filter (fun input =>
              match FieldDetector.createDetectedField findLabel doc input with
              | Normal (Some _) => true
              | _ => false
              end)
           inputs.
Proof.
  induction inputs as [|e inputs IH]; simpl; [reflexivity|].
  unfold Spec.created in *. simpl.
  destruct (FieldDetector.createDetectedField findLabel doc e)
    as [[f|]|err] eqn:Hc; simpl; try exact IH.
  apply createDetectedField_some in Hc.
  destruct Hc as [_ [_ [He _]]]. rewrite He, IH. reflexivity.
Qed.

(** One bad element does not abort a scan: the fields of a scan unit are
    those of its controls that [createDetectedField] accepts, in document
    order, each with its own element; a control whose processing throws is
    left out and costs one error line in the log, and nothing else is
    logged. *)
Theorem scan_unit_skips_failing_controls (unit : Element) :
  let inputs := querySelectorAll unit ["input"; "select"; "textarea"] in
  let result := FieldDetector.detectFieldsInElement findLabel doc unit in
  fst result = Spec.created findLabel doc inputs
  /\ map DetectedField.element (fst result)
     = filter (fun input =>
                 match FieldDetector.createDetectedField findLabel doc input
                 with
                 | Normal (Some _) => true
                 | _ => false
                 end)
              inputs
  /\ snd result
     = repeat (mkLog ERROR "Error detecting field")
              (length (Notions.failing findLabel doc inputs))
  /\ length (fst result) <= length inputs.
Proof.
  cbv zeta. unfold FieldDetector.detectFieldsInElement.
  rewrite detectStep_fields, detectStep_errors. simpl.
  split; [reflexivity|]. split; [apply created_elements|].
  split; [reflexivity|].
  rewrite <- (length_map DetectedField.element), created_elements.
  apply filter_length_le.
Qed.

Lemma created_complete inputs e :
  In e inputs ->
  Notions.eligible findLabel doc e ->
  exists f, In f (Spec.created findLabel doc inputs)
            /\ DetectedField.element f = e.
Proof.
  intros Hin [Hskip [Hident [label Hlabel]]].
  assert (Hc : exists f,
             FieldDetector.createDetectedField findLabel doc e
             = Normal (Some f)
             /\ DetectedField.element f = e).
  { unfold FieldDetector.createDetectedField. rewrite Hskip, Hlabel.
    assert (Hany : negb (truthy (orEmpty (getAttribute e "id")))
                   && negb (truthy (orEmpty (getAttribute e "name")))
                   && negb (truthy (orEmpty (getAttribute e "placeholder")))
                   = false).
    { destruct Hident as [H|[H|H]]; apply truthy_true in H; rewrite H;
        simpl; rewrite ?andb_false_r; reflexivity. }
    rewrite Hany. eexists. split; reflexivity. }
  destruct Hc as [f [Hc He]]. exists f. split; [|exact He].
  unfold Spec.created. apply in_flat_map. exists e. split; [exact Hin|].
  rewrite Hc. now left.
Qed.

(** Detection is complete on the units it scans: a control inside a form
    that is not excluded, has an id, name or placeholder and whose label
    lookup returns, is the element of a field of the result; and when the
    forms yield no field the same holds for every such control inside the
    body. *)
Theorem eligible_controls_are_detected fields e :
  fst (FieldDetector.detectFields findLabel doc) = Normal fields ->
  matchesSelector ["input"; "select"; "textarea"] e = true ->
  Notions.eligible findLabel doc e ->
  ((exists form, In form (Spec.forms doc) /\ In e (descendants form)) ->
   exists f, In f fields /\ DetectedField.element f = e)
  /\ (Spec.formFields findLabel doc = [] ->
      forall b, body doc = Some b -> In e (descendants b) ->
                exists f, In f fields /\ DetectedField.element f = e).
Proof.
  intros Hd Hm He. rewrite detectFields_unfold in Hd. cbv zeta in Hd.
  split.
  - intros [form [Hform Hin]].
    assert (Hff : exists f, In f (Spec.formFields findLabel doc)
                            /\ DetectedField.element f = e).
    { destruct (created_complete
                  (querySelectorAll form ["input"; "select"; "textarea"]) e)
        as [f [Hf Hel]]; [|exact He|].
      - unfold querySelectorAll. apply filter_In. split; assumption.
      - exists f. split; [|exact Hel]. unfold Spec.formFields.
        apply in_flat_map. exists form. split; [exact Hform|].
        unfold FieldDetector.detectFieldsInForm.
        now rewrite detectFieldsInElement_fields. }
    destruct Hff as [f [Hf Hel]].
    destruct (Spec.formFields findLabel doc) as [|g gs] eqn:Hforms;
      [contradiction|].
    simpl in Hd. injection Hd as <-. exists f. split; assumption.
  - intros Hnone b Hb Hin. rewrite Hnone, Hb in Hd. simpl in Hd.
    injection Hd as <-.
    destruct (created_complete
                (querySelectorAll b ["input"; "select"; "textarea"]) e)
      as [f [Hf Hel]]; [|exact He|].
    + unfold querySelectorAll. apply filter_In. split; assumption.
    + exists f. split; [|exact Hel].
      now rewrite detectFieldsInElement_fields.
Qed.

End ScanUnits.

Lemma eligible_controls_are_detected_witness :
  exists f,
    In f [Samples.firstNameScanned; Samples.colorField]
    /\ DetectedField.element f = Samples.colorInput.
Proof.
  apply (eligible_controls_are_detected
           Samples.strictLabel Samples.mixedPage
           [Samples.firstNameScanned; Samples.colorField] Samples.colorInput).
  - reflexivity.
  - reflexivity.
  - split; [reflexivity|]. split; [right; left; discriminate|].
    eexists. reflexivity.
  - exists Samples.mixedForm. split; simpl; tauto.
Defined.

(** The switch on the [type] attribute inverts the enumeration: each of
    the seventeen input kinds is recovered from its own string, every
    result is one of the seventeen, and the strings of the three other
    members (textarea, select, unknown) give TEXT like any unlisted
    value. *)
Theorem input_type_inverts_enumeration :
  (forall t, In t Notions.inputKinds ->
             FieldDetector.inputFieldType (Some (FieldType.toString t)) = t)
  /\ (forall typeAttr,
         In (FieldDetector.inputFieldType typeAttr) Notions.inputKinds)
  /\ (forall t, ~ In t Notions.inputKinds ->
                FieldDetector.inputFieldType (Some (FieldType.toString t))
                = FieldType.TEXT).
Proof.
  split; [|split].
  - intros t Hin. unfold Notions.inputKinds in Hin. simpl in Hin.
    repeat (destruct Hin as [<-|Hin]; [reflexivity|]). contradiction.
  - intros [s|]; unfold FieldDetector.inputFieldType, Notions.inputKinds.
    + repeat match goal with
             | |- context [if ?b then _ else _] =>
                 destruct b; [simpl; tauto|]
             end.
      simpl. tauto.
    + simpl. tauto.
  - intros t Hnot. destruct t; try reflexivity;
      exfalso; apply Hnot; unfold Notions.inputKinds; simpl; tauto.
Qed.

Section AttributeRecord.

Import Dom.








End AttributeRecord.


Section DetectThenFill.

Import Dom.

Variable findLabel : Document -> Element -> Completion (option string).
Variable doc : Document.
Variable fieldMappings : list FieldMapping.t.



End DetectThenFill.


(* ================================================================== *)
(** ** The logger *)

Section LoggerProperties.

Variable runtime : option (LogEntry -> Completion unit).
Variable lg : Logger.t.

(** The level filter is a threshold: a logger that writes a message of one
    level writes every message of a level at least as severe; errors are
    written exactly when the logger is enabled; a disabled logger writes
    nothing at all; and a fresh logger writes everything but debug
    messages. *)
Theorem logger_level_is_a_threshold :
  (forall level level',
      Logger.shouldLog lg level = true ->
      Logger.getLevelValue level <= Logger.getLevelValue level' ->
      Logger.shouldLog lg level' = true)
  /\ Logger.shouldLog lg ERROR = Logger.enabled lg
  /\ (Logger.enabled lg = false ->
      forall level message out,
        Logger.write runtime lg level message out = (Normal tt, out))
  /\ (forall level,
         Logger.shouldLog Logger.initial level = true <-> level <> DEBUG)
  /\ (forall level level',
         Logger.shouldLog (Logger.setLogLevel level lg) level'
         = Logger.enabled lg
           && (Logger.getLevelValue level <=? Logger.getLevelValue level')%nat).
Proof.
  split; [|split; [|split; [|split]]].
  - unfold Logger.shouldLog. intros level level' H Hle.
    apply andb_true_iff in H. destruct H as [He Hl].
    apply Nat.leb_le in Hl. rewrite He. simpl. apply Nat.leb_le. lia.
  - unfold Logger.shouldLog. destruct (Logger.logLevel lg); simpl;
      now rewrite andb_true_r.
  - intros Hoff level message out. unfold Logger.write, Logger.shouldLog.
    rewrite Hoff. reflexivity.
  - intros []; simpl; split; try discriminate; try reflexivity; congruence.
  - reflexivity.
Qed.

(** A logger call never throws and never loses the console line: whatever
    the relay to the background script does -- absent, accepting or
    throwing -- the call returns normally, the console gains the line
    exactly when the level passes the filter, and the relayed trace gains
    it only when the relay is there and accepts it. *)
Theorem logger_contains_relay_failures level message out :
  exists out',
    Logger.write runtime lg level message out = (Normal tt, out')
    /\ Logger.console out'
       = Logger.console out
         ++ (if Logger.shouldLog lg level then [mkLog level message] else [])
    /\ Logger.relayed out'
       = Logger.relayed out
         ++ (if Logger.shouldLog lg level
             then match runtime with
                  | Some send =>
                      match send (mkLog level message) with
                      | Normal _ => [mkLog level message]
                      | Throw _ => []
                      end
                  | None => []
                  end
             else []).
Proof.
  unfold Logger.write. destruct (Logger.shouldLog lg level).
  - unfold Logger.sendLogToBackground, Logger.sendMessage.
    destruct runtime as [send|].
    + destruct (send (mkLog level message)); eexists; simpl;
        repeat split; now rewrite ?app_nil_r.
    + eexists. simpl. repeat split. now rewrite app_nil_r.
  - exists out. repeat split; now rewrite app_nil_r.
Qed.

End LoggerProperties.

(* ================================================================== *)
(** ** The background log buffer *)

Section BufferProperties.

Variable Value : Type.
Variable truthyValue : Value -> bool.

Lemma sliceLast_short {A} (n : nat) (xs : list A) :
  length xs <= n -> Background.sliceLast n xs = xs.
Proof.
  intro H. unfold Background.sliceLast.
  replace (length xs - n) with 0 by lia. reflexivity.
Qed.

Lemma sliceLast_length {A} (n : nat) (xs : list A) :
  length (Background.sliceLast n xs) <= n.
Proof. unfold Background.sliceLast. rewrite length_skipn. lia. Qed.

Lemma sliceLast_app {A} (n : nat) (xs ys : list A) :
  Background.sliceLast n (Background.sliceLast n xs ++ ys)
  = Background.sliceLast n (xs ++ ys).
Proof.
  unfold Background.sliceLast.
  rewrite !length_app, length_skipn, !skipn_app, skipn_skipn, length_skipn.
  f_equal; f_equal; lia.
Qed.

Lemma handleLog_slice now logData (logs : list (Background.StoredLog Value)) :
  length logs <= Background.maxLogs ->
  Background.handleLog Value truthyValue now logData logs
  = Background.sliceLast
      Background.maxLogs
      (logs ++ Background.accepted Value truthyValue (now, logData)).
Proof.
  intro Hlen. unfold Background.handleLog, Background.accepted. simpl.
  destruct logData as [|properties].
  { rewrite app_nil_r. symmetry. now apply sliceLast_short. }
  destruct (Background.property Value "level" properties);
    [|rewrite app_nil_r; symmetry; now apply sliceLast_short].
  destruct (Background.property Value "message" properties);
    [|rewrite app_nil_r; symmetry; now apply sliceLast_short].
  match goal with
  | |- (if (_ <? length ?l)%nat then _ else _) = _ =>
      destruct (Nat.ltb_spec Background.maxLogs (length l)) as [Hgt|Hle]
  end; [reflexivity|].
  symmetry. now apply sliceLast_short.
Qed.

(** The log buffer of the background script is bounded and keeps the
    latest: starting from a buffer of at most 1000 records, after any run
    of LOG messages it holds at most 1000 records, and they are the last
    1000 of the old records followed by the well-formed payloads in arrival
    order; a payload that is no object or lacks [level] or [message] is
    dropped. *)
Theorem log_buffer_keeps_the_latest
        (messages : list (Value * Background.Payload Value))
        (logs : list (Background.StoredLog Value)) :
  length logs <= Background.maxLogs ->
  Background.handleLogs Value truthyValue messages logs
  = Background.sliceLast
      Background.maxLogs
      (logs ++ flat_map (Background.accepted Value truthyValue) messages)
  /\ length (Background.handleLogs Value truthyValue messages logs)
     <= Background.maxLogs.
Proof.
  revert logs. induction messages as [|[now logData] messages IH];
    intros logs Hlen.
  - simpl. rewrite app_nil_r. split; [|exact Hlen].
    symmetry. now apply sliceLast_short.
  - unfold Background.handleLogs in *. simpl fold_left. simpl flat_map.
    rewrite (handleLog_slice now logData logs Hlen).
    destruct (IH (Background.sliceLast
                    Background.maxLogs
                    (logs ++ Background.accepted Value truthyValue
                                                 (now, logData))))
      as [Heq Hle]; [apply sliceLast_length|].
    split; [|exact Hle].
    rewrite Heq, sliceLast_app, app_assoc. reflexivity.
Qed.

End BufferProperties.

Lemma log_buffer_keeps_the_latest_witness :
  Background.handleLogs
    string truthy
    [("09:00", Background.Object string
                 [("level", "info"); ("message", "Filling forms")]);
     ("09:01", Background.NotAnObject string);
     ("09:02", Background.Object string
                 [("level", "error"); ("message", "Error filling field: q");
                  ("timestamp", "08:59")])]
    []
  = [Background.mkStored string "info" "Filling forms" "09:00";
     Background.mkStored string "error" "Error filling field: q" "08:59"].
Proof.
  destruct (log_buffer_keeps_the_latest
              string truthy
              [("09:00", Background.Object string
                           [("level", "info"); ("message", "Filling forms")]);
               ("09:01", Background.NotAnObject string);
               ("09:02", Background.Object string
                           [("level", "error");
                            ("message", "Error filling field: q");
                            ("timestamp", "08:59")])]
              []) as [Heq _].
  - unfold Background.maxLogs. simpl. lia.
  - rewrite Heq. reflexivity.
Defined.

Lemma fill_touches_only_listed_elements_witness :
  props (snd (FormFiller.fillFields
                [Examples.genderByType; Examples.termsByType]
                [Examples.genderField; Examples.termsField]
                (Examples.page 0 false)))
        (Dom.handle Examples.emailInput)
  = props (Examples.page 0 false) (Dom.handle Examples.emailInput).
Proof.
  apply (fill_touches_only_listed_elements
           [Examples.genderByType; Examples.termsByType]
           [Examples.genderField; Examples.termsField]
           (Examples.page 0 false)).
  - intros f [<-|[<-|[]]]; reflexivity.
  - simpl. intros [H|[H|[]]]; discriminate.
Defined.

(* ================================================================== *)
(** ** fillForms and a document without body *)

(** [fillForms] throws exactly when detection throws: the fill loop and
    the closing logger call add no exception of their own, and nothing
    catches the one detection raises. *)
Lemma fillForms_throws_with_detection
      (fieldMappings : list FieldMapping.t)
      (findLabel : Dom.Document -> Dom.Element -> Completion (option string))
      (doc : Dom.Document) (w : World) (e : Error) :
  fst (FormFiller.fillForms fieldMappings findLabel doc w) = Throw e
  <-> fst (FieldDetector.detectFields findLabel doc) = Throw e.
Proof.
  unfold FormFiller.fillForms, FormFiller.detectFields, bind.
  destruct (fst (FieldDetector.detectFields findLabel doc))
    as [detected|err] eqn:Hd.
  - unfold FormFiller.fillFields. rewrite fillLoop_counts. simpl.
    split; discriminate.
  - simpl. split; intros [= ->]; reflexivity.
Qed.

(** Detection throws exactly when the forms yield no field and the
    document has no body. *)
Lemma detectFields_throws_without_body
      (findLabel : Dom.Document -> Dom.Element -> Completion (option string))
      (doc : Dom.Document) :
  fst (FieldDetector.detectFields findLabel doc) = Throw TypeError
  <-> Spec.formFields findLabel doc = [] /\ Dom.body doc = None.
Proof.
  rewrite detectFields_unfold. cbv zeta.
  destruct (Spec.formFields findLabel doc) as [|f fs]; simpl.
  - destruct (Dom.body doc) as [b|]; simpl.
    + split; [discriminate|]. intros [_ H]. discriminate.
    + split; auto.
  - split; [discriminate|]. intros [H _]. discriminate.
Qed.

(** C6.  The code misses the claim.  [fillForms] runs detection outside
    any [try]; on a document that has no body and no form -- here an SVG
    image opened in a tab -- detection reads [document.body], which is
    null, and throws a TypeError, and the exception leaves [fillForms]
    with no count returned, whatever the mapping table.  (Once detection
    has returned its list the loop does what the claim says: every
    exception of a field is caught and the count is returned.) *)
Theorem fill_forms_throws_without_body :
  Dom.body Samples.bodylessPage = None
  /\ Spec.forms Samples.bodylessPage = []
  /\ fst (FieldDetector.detectFields Examples.ariaLabel Samples.bodylessPage)
     = Throw TypeError
  /\ (forall fieldMappings w,
         fst (FormFiller.fillForms fieldMappings Examples.ariaLabel
                                   Samples.bodylessPage w)
         = Throw TypeError).
Proof.
  split; [reflexivity|]. split; [reflexivity|]. split; [reflexivity|].
  intros fieldMappings w. apply fillForms_throws_with_detection.
  reflexivity.
Qed.
